(** * monitor_file_ops.js: a shallow embedding of the Frida monitoring script

    The script [src/frida_scripts/monitor_file_ops.js] installs hooks on
    managed (Java) methods and on native libc functions and prints, for
    each interception, a human-readable line and a structured JSON line.

    The embedding follows the script top to bottom:
    - [Js]      the fragment of JavaScript the script relies on (string
                coercion, [indexOf], [includes], truthiness, [toInt32]);
    - [Eff]     a state-and-exception monad over the observable world
                (console lines, stack captures, forwarded calls, installed
                hooks, and the binding of the free identifier
                [seenEvents]);
    - [Script]  the hooks and the bootstrap code, statement by statement;
    - the theorems about them. *)

From Stdlib Require Import ZArith List Lia Bool.
From Stdlib Require Import Strings.String Strings.Ascii.
From stdpp Require Import base strings gmap pretty list.

Local Open Scope string_scope.
Local Open Scope Z_scope.
Local Open Scope list_scope.

(* ===================================================================== *)
(** ** The JavaScript fragment                                            *)
(* ===================================================================== *)

Module Js.

(** Values that reach the hooks.  Frida marshals a [java.lang.String]
    argument as a JS string (or [null]), a Java [int] as a number and
    any other object as a wrapper object. *)
Inductive value :=
| VUndefined
| VNull
| VBool (b : bool)
| VInt (z : Z)
| VString (s : string)
| VObject (handle : Z).

(** [Number.prototype.toString] on an integer: decimal digits with a
    leading minus sign for negatives. *)
Definition int_toString (z : Z) : string := pretty z.

(** The abstract operation ToString, as used by [+] when one operand is a
    string. *)
Definition ToString (v : value) : string :=
  match v with
  | VUndefined => "undefined"
  | VNull => "null"
  | VBool true => "true"
  | VBool false => "false"
  | VInt z => int_toString z
  | VString s => s
  | VObject _ => "[object Object]"
  end.

(** ToBoolean on strings: only the empty string is falsy. *)
Definition truthy_string (s : string) : bool :=
  match s with
  | EmptyString => false
  | String _ _ => true
  end.

(** [s.indexOf(pat)]: position of the first occurrence, or [-1]. *)
Definition indexOf (s pat : string) : Z :=
  match String.index 0 pat s with
  | Some n => Z.of_nat n
  | None => -1
  end.

(** [arr.includes(x)] on an array of strings. *)
Definition includes (arr : list string) (x : string) : bool :=
  existsb (String.eqb x) arr.

(** [NativePointer.prototype.toInt32]: the low 32 bits of the pointer,
    read as a signed two's-complement integer. *)
Definition toInt32 (p : Z) : Z :=
  (p + 2 ^ 31) mod 2 ^ 32 - 2 ^ 31.

End Js.

(* ===================================================================== *)
(** ** Effects                                                            *)
(* ===================================================================== *)

Module Eff.

(** What can be thrown. *)
Inductive exn :=
| ReferenceError (identifier : string)
| TypeError (message : string)
| HostError (message : string)
| JavaException (message : string).

Definition exn_toString (e : exn) : string :=
  match e with
  | ReferenceError x => "ReferenceError: " +:+ x +:+ " is not defined"
  | TypeError m => "TypeError: " +:+ m
  | HostError m => "Error: " +:+ m
  | JavaException m => "Error: " +:+ m
  end.

(** Observable actions, in program order. *)
Inductive action :=
| ConsoleLog (line : string)
| Backtrace
| CallOriginal (target : string) (args : list Js.value)
| ProceedNative (target : string)
| Install (target : string)
| ScriptError (e : exn).

(** The world a piece of script code runs in: the actions performed so
    far (oldest first) and the object the free identifier [seenEvents]
    resolves to, [None] when no binding for it exists. *)
Record World := mkWorld {
  trace : list action;
  seenEvents : option (gmap string bool)
}.

Inductive outcome (A : Type) :=
| Ret (a : A)
| Throw (e : exn).
Arguments Ret {A} a.
Arguments Throw {A} e.

Definition M (A : Type) : Type := World -> outcome A * World.

Definition ret {A} (a : A) : M A := fun w => (Ret a, w).

Definition throw {A} (e : exn) : M A := fun w => (Throw e, w).

Definition bind {A B} (m : M A) (k : A -> M B) : M B :=
  fun w =>
    match m w with
    | (Ret a, w') => k a w'
    | (Throw e, w') => (Throw e, w')
    end.

(** [try { body } catch (e) { handler(e) }] *)
Definition try_catch {A} (body : M A) (handler : exn -> M A) : M A :=
  fun w =>
    match body w with
    | (Ret a, w') => (Ret a, w')
    | (Throw e, w') => handler e w'
    end.

Definition emit (a : action) : M unit :=
  fun w => (Ret tt, mkWorld (trace w ++ [a]) (seenEvents w)).

Definition console_log (line : string) : M unit := emit (ConsoleLog line).

(** Lift a host result (a value or a thrown exception). *)
Definition lift {A} (r : exn + A) : M A :=
  match r with
  | inl e => throw e
  | inr a => ret a
  end.

(** Reading [seenEvents[key]]: resolving the identifier comes first and
    throws when it has no binding; a missing property reads as
    [undefined], which is falsy. *)
Definition seenEvents_get (key : string) : M bool :=
  fun w =>
    match seenEvents w with
    | None => (Throw (ReferenceError "seenEvents"), w)
    | Some o => (Ret (default false (o !! key)), w)
    end.

(** [seenEvents[key] = true] *)
Definition seenEvents_set (key : string) : M unit :=
  fun w =>
    match seenEvents w with
    | None => (Throw (ReferenceError "seenEvents"), w)
    | Some o => (Ret tt, mkWorld (trace w) (Some (<[key := true]> o)))
    end.

End Eff.

Import Eff.

Declare Scope js_scope.
Delimit Scope js_scope with js.
Notation "x <- m ;; k" := (bind m (fun x => k))
  (at level 100, m at next level, right associativity) : js_scope.
Notation "m ;;; k" := (bind m (fun _ => k))
  (at level 100, right associativity) : js_scope.
Local Open Scope js_scope.

(* ===================================================================== *)
(** ** The script                                                         *)
(* ===================================================================== *)

Module Script.

(** The script writes its JSON fragments as single-quoted JS literals
    that contain double quotes.  Here each such literal is written with
    an apostrophe standing for the double quote; [jsq] puts the double
    quotes back.  (No literal of the script contains an apostrophe.) *)
Definition jsq_char (c : ascii) : ascii :=
  if Ascii.eqb c (ascii_of_nat 39) then ascii_of_nat 34 else c.

Fixpoint jsq (s : string) : string :=
  match s with
  | EmptyString => EmptyString
  | String c rest => String (jsq_char c) (jsq rest)
  end.

(** *** Lines 6-18: the monitored API list and its gate *)

Definition monitoredApis : list string :=
  [ "java.io.File.<init>";
    "java.io.FileInputStream.<init>";
    "java.io.FileOutputStream.<init>";
    "android.content.Context.openFileOutput";
    "android.content.Context.openFileInput";
    "android.content.res.AssetManager.open" ].

Definition shouldLogApi (apiName : string) : bool :=
  Js.includes monitoredApis apiName.

(** *** Managed hooks (lines 20-103) *)

(** A [DebugSymbol] as the script uses it: an object (hence always
    truthy) of which only [toString()] is read. *)
Record DebugSymbol := mkSymbol { toString : string }.

(** What a managed hook finds at a call: the value of
    [Thread.backtrace(this.context, Backtracer.ACCURATE)
       .map(DebugSymbol.fromAddress)]
    at that moment (or the exception it throws), and the implementation
    the hook replaces, reached through [this]. *)
Record Receiver := mkReceiver {
  stack_capture : exn + list DebugSymbol;
  original : list Js.value -> exn + Js.value
}.

Definition Thread_backtrace (this : Receiver) : M (list DebugSymbol) :=
  emit Backtrace ;;; lift (stack_capture this).

Definition call_original (this : Receiver) (target : string)
    (args : list Js.value) : M Js.value :=
  emit (CallOriginal target args) ;;; lift (original this args).

(** [stack[i].toString().indexOf("com.example") >= 0] *)
Definition isAppFrame (f : DebugSymbol) : bool :=
  (0 <=? Js.indexOf (toString f) "com.example")%Z.

(** Lines 31-36: the [for] loop with its [break]; [callSite] is the
    value the variable holds when the loop is entered. *)
Fixpoint scanFrames (stack : list DebugSymbol) (callSite : string) : string :=
  match stack with
  | [] => callSite
  | f :: rest =>
      if true && isAppFrame f then toString f else scanFrames rest callSite
  end.

(** Lines 39-41: [if (!callSite && stack.length > 0) callSite = stack[0].toString();] *)
Definition firstFrameFallback (stack : list DebugSymbol) (callSite : string)
    : M string :=
  if negb (Js.truthy_string callSite) && (0 <? Z.of_nat (List.length stack))%Z
  then match stack !! 0%nat with
       | Some f => ret (toString f)
       | None => throw (TypeError "Cannot read properties of undefined")
       end
  else ret callSite.

(** Lines 28-41: call-site resolution over a captured stack. *)
Definition resolveCallSite (stack : list DebugSymbol) : M string :=
  let callSite := "" in
  let callSite := scanFrames stack callSite in
  firstFrameFallback stack callSite.

(** Lines 22-49 *)
Definition File_init (this : Receiver) (path : Js.value) : M Js.value :=
  let apiName := "java.io.File.<init>" in
  (if shouldLogApi apiName then
     stack <- Thread_backtrace this ;;
     callSite <- resolveCallSite stack ;;
     console_log ("[File] Creating file: " +:+ Js.ToString path) ;;;
     console_log (jsq "{'type':'api','name':'" +:+ apiName
                    +:+ jsq "','method':'" +:+ callSite
                    +:+ jsq "','args':{'path':'" +:+ Js.ToString path
                    +:+ jsq "'}}")
   else ret tt) ;;;
  call_original this "java.io.File.<init>" [path].

(** Lines 53-57 *)
Definition FileOutputStream_init (this : Receiver) (path : Js.value)
    : M Js.value :=
  console_log ("[FileOutputStream] Opening file output stream: "
                 +:+ Js.ToString path) ;;;
  console_log (jsq "{'type':'api','name':'java.io.FileOutputStream.<init>','method':'unknown','args':{'path':'"
                 +:+ Js.ToString path +:+ jsq "'}}") ;;;
  call_original this "java.io.FileOutputStream.<init>" [path].

(** Lines 61-65 *)
Definition FileInputStream_init (this : Receiver) (path : Js.value)
    : M Js.value :=
  console_log ("[FileInputStream] Opening file input stream: "
                 +:+ Js.ToString path) ;;;
  console_log (jsq "{'type':'api','name':'java.io.FileInputStream.<init>','method':'unknown','args':{'path':'"
                 +:+ Js.ToString path +:+ jsq "'}}") ;;;
  call_original this "java.io.FileInputStream.<init>" [path].

(** Lines 70-74 *)
Definition Context_openFileOutput (this : Receiver) (fileName mode : Js.value)
    : M Js.value :=
  console_log ("[Context] Opening file output: " +:+ Js.ToString fileName) ;;;
  console_log (jsq "{'type':'api','name':'android.content.Context.openFileOutput','method':'unknown','args':{'fileName':'"
                 +:+ Js.ToString fileName +:+ jsq "'}}") ;;;
  call_original this "android.content.Context.openFileOutput" [fileName; mode].

(** Lines 79-82: the result of the original is dropped ([onCreate] is
    [void]); the function returns [undefined]. *)
Definition Activity_onCreate (this : Receiver) (bundle : Js.value)
    : M Js.value :=
  console_log "[Activity] onCreate called" ;;;
  _ <- call_original this "android.app.Activity.onCreate" [bundle] ;;
  ret Js.VUndefined.

(** Lines 86-89 *)
Definition MainActivity_setupFileOperationButton (this : Receiver)
    : M Js.value :=
  console_log "[MainActivity] Setting up file operation button" ;;;
  _ <- call_original this
         "com.example.fridatestjavaapp.MainActivity.setupFileOperationButton" [] ;;
  ret Js.VUndefined.

(** Lines 97-100 *)
Definition MainActivity1_onClick (this : Receiver) (view : Js.value)
    : M Js.value :=
  console_log "[MainActivity$1] Click event triggered" ;;;
  _ <- call_original this
         "com.example.fridatestjavaapp.MainActivity$1.onClick" [view] ;;
  ret Js.VUndefined.

(** *** Native hooks (lines 110-196) *)

(** [args] of an [onEnter] callback: the raw argument words of the
    intercepted call, read by position. *)
Definition NativeArgs := nat -> Z.

(** Lines 118-125: the [switch] on the domain. *)
Definition socket_domainName (domain : Z) : string :=
  match domain with
  | 0 => "AF_UNSPEC"
  | 1 => "AF_UNIX"
  | 2 => "AF_INET"
  | 10 => "AF_INET6"
  | _ => Js.int_toString domain
  end.

(** Lines 128-134: the [switch] on the socket type. *)
Definition socket_typeName (type : Z) : string :=
  match type with
  | 1 => "SOCK_STREAM"
  | 2 => "SOCK_DGRAM"
  | 3 => "SOCK_RAW"
  | _ => Js.int_toString type
  end.

(** Lines 113-138 *)
Definition socket_onEnter (args : NativeArgs) : M unit :=
  let domain := Js.toInt32 (args 0%nat) in
  let type := Js.toInt32 (args 1%nat) in
  let domainName := socket_domainName domain in
  let typeName := socket_typeName type in
  console_log ("[Native] Creating socket: domain=" +:+ domainName
                 +:+ ", type=" +:+ typeName) ;;;
  console_log (jsq "{'type':'api','name':'libc.socket','method':'native','args':{'domain':'"
                 +:+ domainName +:+ jsq "','type':'" +:+ typeName
                 +:+ jsq "'}}").

(** Lines 143-155 *)
Definition connect_onEnter (args : NativeArgs) : M unit :=
  let sockfd := Js.toInt32 (args 0%nat) in
  let eventId := "connect_" +:+ Js.int_toString sockfd in
  seen <- seenEvents_get eventId ;;
  if negb seen then
    seenEvents_set eventId ;;;
    console_log ("[Native] Connect called with sockfd: "
                   +:+ Js.int_toString sockfd) ;;;
    console_log (jsq "{'type':'api','name':'libc.connect','method':'native','args':{'sockfd':'"
                   +:+ Js.int_toString sockfd +:+ jsq "'}}")
  else ret tt.

(** Lines 160-173 *)
Definition send_onEnter (args : NativeArgs) : M unit :=
  let sockfd := Js.toInt32 (args 0%nat) in
  let dataSize := Js.toInt32 (args 2%nat) in
  let eventId := "send_" +:+ Js.int_toString sockfd +:+ "_"
                   +:+ Js.int_toString dataSize in
  seen <- seenEvents_get eventId ;;
  if negb seen then
    seenEvents_set eventId ;;;
    console_log ("[Native] Sending " +:+ Js.int_toString dataSize
                   +:+ " bytes on socket " +:+ Js.int_toString sockfd) ;;;
    console_log (jsq "{'type':'api','name':'libc.send','method':'native','args':{'sockfd':'"
                   +:+ Js.int_toString sockfd +:+ jsq "','size':'"
                   +:+ Js.int_toString dataSize +:+ jsq "'}}")
  else ret tt.

(** Lines 178-191 *)
Definition recv_onEnter (args : NativeArgs) : M unit :=
  let sockfd := Js.toInt32 (args 0%nat) in
  let bufferSize := Js.toInt32 (args 2%nat) in
  let eventId := "recv_" +:+ Js.int_toString sockfd +:+ "_"
                   +:+ Js.int_toString bufferSize in
  seen <- seenEvents_get eventId ;;
  if negb seen then
    seenEvents_set eventId ;;;
    console_log ("[Native] Receiving up to " +:+ Js.int_toString bufferSize
                   +:+ " bytes on socket " +:+ Js.int_toString sockfd) ;;;
    console_log (jsq "{'type':'api','name':'libc.recv','method':'native','args':{'sockfd':'"
                   +:+ Js.int_toString sockfd +:+ jsq "','size':'"
                   +:+ Js.int_toString bufferSize +:+ jsq "'}}")
  else ret tt.

(** *** Bootstrap (the body of [Java.perform], lines 2-198) *)

(** The process the script is loaded into: which classes [Java.use]
    finds, which members a class wrapper exposes, and which symbols
    [Module.findExportByName("libc.so", _)] resolves. *)
Record Process := mkProcess {
  java_class : string -> bool;
  java_member : string -> string -> bool;
  libc_export : string -> bool
}.

(** [Java.use(cls)] throws when the class cannot be found. *)
Definition Java_use (p : Process) (cls : string) : M unit :=
  if java_class p cls then ret tt
  else throw (HostError ("java.lang.ClassNotFoundException: " +:+ cls)).

(** [Cls.member(...).implementation = f]: reading a property of the
    missing member throws a [TypeError]; otherwise the replacement is
    installed. *)
Definition set_implementation (p : Process) (cls member target : string)
    : M unit :=
  if java_member p cls member then emit (Install target)
  else throw (TypeError ("Cannot read properties of undefined (reading "
                           +:+ member +:+ ")")).

(** [Interceptor.attach(Module.findExportByName("libc.so", sym), ...)]:
    [findExportByName] yields [null] for a missing export and [attach]
    throws on it. *)
Definition Interceptor_attach (p : Process) (sym target : string) : M unit :=
  if libc_export p sym then emit (Install target)
  else throw (HostError "expected a pointer").

Definition T_File := "java.io.File.<init>".
Definition T_FileOutputStream := "java.io.FileOutputStream.<init>".
Definition T_FileInputStream := "java.io.FileInputStream.<init>".
Definition T_openFileOutput := "android.content.Context.openFileOutput".
Definition T_onCreate := "android.app.Activity.onCreate".
Definition C_MainActivity := "com.example.fridatestjavaapp.MainActivity".
Definition C_MainActivity1 := "com.example.fridatestjavaapp.MainActivity$1".
Definition T_setupButton :=
  "com.example.fridatestjavaapp.MainActivity.setupFileOperationButton".
Definition T_onClick := "com.example.fridatestjavaapp.MainActivity$1.onClick".
Definition T_socket := "libc.socket".
Definition T_connect := "libc.connect".
Definition T_send := "libc.send".
Definition T_recv := "libc.recv".

Definition main (p : Process) : M unit :=
  console_log "[+] Frida script loaded" ;;;
  (* lines 21-22 *)
  Java_use p "java.io.File" ;;;
  set_implementation p "java.io.File" "$init" T_File ;;;
  (* lines 52-53 *)
  Java_use p "java.io.FileOutputStream" ;;;
  set_implementation p "java.io.FileOutputStream" "$init" T_FileOutputStream ;;;
  (* lines 60-61 *)
  Java_use p "java.io.FileInputStream" ;;;
  set_implementation p "java.io.FileInputStream" "$init" T_FileInputStream ;;;
  (* lines 68-75 *)
  Java_use p "android.content.Context" ;;;
  (if java_member p "android.content.Context" "openFileOutput"
   then emit (Install T_openFileOutput)
   else ret tt) ;;;
  (* lines 78-79 *)
  Java_use p "android.app.Activity" ;;;
  set_implementation p "android.app.Activity" "onCreate" T_onCreate ;;;
  (* lines 84-92 *)
  try_catch
    (Java_use p C_MainActivity ;;;
     set_implementation p C_MainActivity "setupFileOperationButton" T_setupButton)
    (fun e => console_log ("Could not monitor setupFileOperationButton: "
                             +:+ exn_toString e)) ;;;
  (* lines 95-103 *)
  try_catch
    (Java_use p C_MainActivity1 ;;;
     set_implementation p C_MainActivity1 "onClick" T_onClick)
    (fun e => console_log ("Could not monitor MainActivity$1: "
                             +:+ exn_toString e)) ;;;
  (* lines 108-196 *)
  console_log "[+] Setting up native network monitoring" ;;;
  try_catch
    (Interceptor_attach p "socket" T_socket ;;;
     Interceptor_attach p "connect" T_connect ;;;
     Interceptor_attach p "send" T_send ;;;
     Interceptor_attach p "recv" T_recv)
    (fun e => console_log ("Error setting up native network hooks: "
                             +:+ exn_toString e)) ;;;
  console_log "[+] Monitoring setup complete, waiting for operations...".

(** *** Interceptions at run time *)

(** One call of a hooked entry point, with what the hook receives. *)
Inductive interception :=
| IFileInit (this : Receiver) (path : Js.value)
| IFileOutputStreamInit (this : Receiver) (path : Js.value)
| IFileInputStreamInit (this : Receiver) (path : Js.value)
| IOpenFileOutput (this : Receiver) (fileName mode : Js.value)
| ISocket (args : NativeArgs)
| IConnect (args : NativeArgs)
| ISend (args : NativeArgs)
| IRecv (args : NativeArgs).

(** The interception primitive for native functions: it runs [onEnter],
    reports an exception thrown by it to the host without disturbing
    the intercepted call, and then lets the original function run. *)
Definition Interceptor_invoke (target : string) (onEnter : NativeArgs -> M unit)
    (args : NativeArgs) : M unit :=
  try_catch (onEnter args) (fun e => emit (ScriptError e)) ;;;
  emit (ProceedNative target).

(** The replacement of a managed method is what the caller runs. *)
Definition hook (i : interception) : M Js.value :=
  match i with
  | IFileInit this path => File_init this path
  | IFileOutputStreamInit this path => FileOutputStream_init this path
  | IFileInputStreamInit this path => FileInputStream_init this path
  | IOpenFileOutput this fileName mode =>
      Context_openFileOutput this fileName mode
  | ISocket args =>
      Interceptor_invoke T_socket socket_onEnter args ;;; ret Js.VUndefined
  | IConnect args =>
      Interceptor_invoke T_connect connect_onEnter args ;;; ret Js.VUndefined
  | ISend args =>
      Interceptor_invoke T_send send_onEnter args ;;; ret Js.VUndefined
  | IRecv args =>
      Interceptor_invoke T_recv recv_onEnter args ;;; ret Js.VUndefined
  end.

(** The world after one interception; what the hook returned or threw
    goes to the caller and does not stop later interceptions. *)
Definition step (w : World) (i : interception) : World := snd (hook i w).

(** A run of the process: the interceptions in the order they occur. *)
Definition run (calls : list interception) (w : World) : World :=
  fold_left step calls w.

(** The world when the script has just been loaded: nothing has been
    done, and no statement of the script declares [seenEvents]. *)
Definition initial_world : World := mkWorld [] None.

End Script.

Import Script.

(* ===================================================================== *)
(** ** Observations on a world                                            *)
(* ===================================================================== *)

(** The lines written by [console.log], oldest first. *)
Definition console_of (tr : list action) : list string :=
  omap (fun a => match a with ConsoleLog l => Some l | _ => None end) tr.

Definition console (w : World) : list string := console_of (trace w).

(** A structured event line is one that opens the JSON record of the
    script; every other line is free-form diagnostics. *)
Definition is_structured (line : string) : bool :=
  String.prefix (jsq "{'type':'api',") line.

Definition structured_lines (w : World) : list string :=
  List.filter is_structured (console w).

(** The invocations of original managed implementations, oldest first. *)
Definition forwarded_of (tr : list action) : list (string * list Js.value) :=
  omap (fun a => match a with CallOriginal t args => Some (t, args) | _ => None end) tr.

Definition forwarded (w : World) : list (string * list Js.value) :=
  forwarded_of (trace w).


(** The targets whose hook has been installed, in installation order. *)
Definition installed (w : World) : list string :=
  omap (fun a => match a with Install t => Some t | _ => None end) (trace w).

(** The structured line for an event, from its variable parts;
    [argsJson] is the text between the braces of [args]. *)
Definition structured (name method argsJson : string) : string :=
  jsq "{'type':'api','name':'" +:+ name +:+ jsq "','method':'" +:+ method
    +:+ jsq "','args':{" +:+ argsJson +:+ "}}".

Definition jsonField (key val : string) : string :=
  jsq "'" +:+ key +:+ jsq "':'" +:+ val +:+ jsq "'".

(** The world a hook runs in once the script has been loaded into [p]. *)
Definition loaded (p : Process) : World := snd (main p initial_world).

(** A process in which every symbol the script names is present. *)
Definition full_process : Process :=
  mkProcess (fun _ => true) (fun _ _ => true) (fun _ => true).

(* ===================================================================== *)
(** ** Definitions used to state the properties                           *)
(* ===================================================================== *)

(** What resolution yields, as a function of the captured stack. *)
Definition resolved (stack : list DebugSymbol) : string :=
  match stack with
  | [] => ""
  | f0 :: _ =>
      match List.find isAppFrame stack with
      | Some f => toString f
      | None => toString f0
      end
  end.

(** A receiver whose stack capture yields [stack] and whose original
    constructor succeeds. *)
Definition receiver_with (stack : list DebugSymbol) : Receiver :=
  mkReceiver (inr stack) (fun _ => inr Js.VUndefined).

(** For an interception of a managed target: the receiver, the target
    and the arguments of the intercepted call. *)
Definition managed_call (i : interception)
    : option (Receiver * string * list Js.value) :=
  match i with
  | IFileInit this path => Some (this, T_File, [path])
  | IFileOutputStreamInit this path => Some (this, T_FileOutputStream, [path])
  | IFileInputStreamInit this path => Some (this, T_FileInputStream, [path])
  | IOpenFileOutput this fileName mode =>
      Some (this, T_openFileOutput, [fileName; mode])
  | ISocket _ | IConnect _ | ISend _ | IRecv _ => None
  end.

(** The exception, if any, thrown by the stack capture of the hook. *)
Definition capture_failure (i : interception) : option exn :=
  match i with
  | IFileInit this _ =>
      match stack_capture this with
      | inl e => Some e
      | inr _ => None
      end
  | _ => None
  end.

(** What the caller gets from the uninstrumented implementation. *)
Definition uninstrumented (this : Receiver) (args : list Js.value)
    : outcome Js.value :=
  match original this args with
  | inl e => Throw e
  | inr v => Ret v
  end.

(** A receiver whose stack capture throws. *)
Definition failing_capture : Receiver :=
  mkReceiver (inl (HostError "unable to capture a backtrace"))
             (fun _ => inr Js.VUndefined).

(** The structured line a managed interception prints, when its stack
    capture does not throw. *)
Definition managed_event (i : interception) : option string :=
  match i with
  | IFileInit this path =>
      match stack_capture this with
      | inl _ => None
      | inr stack =>
          Some (structured T_File (resolved stack) (jsonField "path" (Js.ToString path)))
      end
  | IFileOutputStreamInit _ path =>
      Some (structured T_FileOutputStream "unknown" (jsonField "path" (Js.ToString path)))
  | IFileInputStreamInit _ path =>
      Some (structured T_FileInputStream "unknown" (jsonField "path" (Js.ToString path)))
  | IOpenFileOutput _ fileName _ =>
      Some (structured T_openFileOutput "unknown"
              (jsonField "fileName" (Js.ToString fileName)))
  | ISocket _ | IConnect _ | ISend _ | IRecv _ => None
  end.

(** The common shape of the [connect], [send] and [recv] callbacks. *)
Definition dedup_body (eventId diag line : string) : M unit :=
  seen <- seenEvents_get eventId ;;
  if negb seen then
    seenEvents_set eventId ;;; console_log diag ;;; console_log line
  else ret tt.

(** For an interception of [connect], [send] or [recv]: the target, the
    event identifier the callback computes, and the two lines it prints
    when it prints. *)
Definition dedup_event (i : interception)
    : option (string * string * string * string) :=
  match i with
  | IConnect args =>
      let sockfd := Js.int_toString (Js.toInt32 (args 0%nat)) in
      Some (T_connect, "connect_" +:+ sockfd,
            "[Native] Connect called with sockfd: " +:+ sockfd,
            structured T_connect "native" (jsonField "sockfd" sockfd))
  | ISend args =>
      let sockfd := Js.int_toString (Js.toInt32 (args 0%nat)) in
      let size := Js.int_toString (Js.toInt32 (args 2%nat)) in
      Some (T_send, "send_" +:+ sockfd +:+ "_" +:+ size,
            "[Native] Sending " +:+ size +:+ " bytes on socket " +:+ sockfd,
            structured T_send "native"
              (jsonField "sockfd" sockfd +:+ "," +:+ jsonField "size" size))
  | IRecv args =>
      let sockfd := Js.int_toString (Js.toInt32 (args 0%nat)) in
      let size := Js.int_toString (Js.toInt32 (args 2%nat)) in
      Some (T_recv, "recv_" +:+ sockfd +:+ "_" +:+ size,
            "[Native] Receiving up to " +:+ size +:+ " bytes on socket " +:+ sockfd,
            structured T_recv "native"
              (jsonField "sockfd" sockfd +:+ "," +:+ jsonField "size" size))
  | _ => None
  end.

(** The (target, key) pair under which an interception is deduplicated. *)
Definition dedup_key (i : interception) : option (string * string) :=
  match dedup_event i with
  | Some (target, key, _, _) => Some (target, key)
  | None => None
  end.

(** The structured lines an interception adds to the console. *)
Definition new_structured (w : World) (i : interception) : list string :=
  drop (List.length (structured_lines w)) (structured_lines (step w i)).

(** The per-interception record of a run: each interception with the
    structured lines it added. *)
Fixpoint emissions (calls : list interception) (w : World)
    : list (interception * list string) :=
  match calls with
  | [] => []
  | i :: rest => (i, new_structured w i) :: emissions rest (step w i)
  end.

(** An entry of the record that carries the pair [tk] and emitted. *)
Definition emitting_with (tk : string * string)
    (e : interception * list string) : bool :=
  bool_decide (dedup_key (fst e) = Some tk)
  && match snd e with [] => false | _ :: _ => true end.

Definition marked (key : string) (w : World) : Prop :=
  exists o, seenEvents w = Some o /\ o !! key = Some true.

Definition keeps_store {A} (m : M A) : Prop :=
  forall w, seenEvents (snd (m w)) = seenEvents w.

(** Argument words of a native call, given as a list. *)
Definition args_of (l : list Z) : NativeArgs := fun n => nth n l 0.

(** A process in which only the libc export [socket] is missing. *)
Definition without_socket : Process :=
  mkProcess (fun _ => true) (fun _ _ => true)
            (fun sym => negb (String.eqb sym "socket")).

(** A process in which only the class [java.io.FileOutputStream] is
    missing. *)
Definition without_FileOutputStream : Process :=
  mkProcess (fun cls => negb (String.eqb cls "java.io.FileOutputStream"))
            (fun _ _ => true) (fun _ => true).

(** Every symbol the script names outside its two [try] blocks for the
    application's own classes. *)
Definition core_present (p : Process) : Prop :=
  java_class p "java.io.File" = true /\
  java_member p "java.io.File" "$init" = true /\
  java_class p "java.io.FileOutputStream" = true /\
  java_member p "java.io.FileOutputStream" "$init" = true /\
  java_class p "java.io.FileInputStream" = true /\
  java_member p "java.io.FileInputStream" "$init" = true /\
  java_class p "android.content.Context" = true /\
  java_member p "android.content.Context" "openFileOutput" = true /\
  java_class p "android.app.Activity" = true /\
  java_member p "android.app.Activity" "onCreate" = true /\
  libc_export p "socket" = true /\
  libc_export p "connect" = true /\
  libc_export p "send" = true /\
  libc_export p "recv" = true.

(** The symbol of [MainActivity.setupFileOperationButton] is present. *)
Definition setupButton_present (p : Process) : bool :=
  java_class p C_MainActivity
  && java_member p C_MainActivity "setupFileOperationButton".

(** The symbol of [MainActivity$1.onClick] is present. *)
Definition onClick_present (p : Process) : bool :=
  java_class p C_MainActivity1 && java_member p C_MainActivity1 "onClick".

(** A process in which only the class [MainActivity] is missing. *)
Definition without_MainActivity : Process :=
  mkProcess (fun cls => negb (String.eqb cls C_MainActivity))
            (fun _ _ => true) (fun _ => true).

(** The targets the bootstrap names, in script order. *)
Definition all_targets : list string :=
  [ T_File; T_FileOutputStream; T_FileInputStream; T_openFileOutput; T_onCreate;
    T_setupButton; T_onClick; T_socket; T_connect; T_send; T_recv ].

(** [m] installs, from any world, a subsequence of [l] and nothing else. *)
Definition installs {A} (m : M A) (l : list string) : Prop :=
  forall w, exists l', sublist l' l /\ installed (snd (m w)) = installed w ++ l'.

(** The classes and members the bootstrap uses outside any [try] block
    and outside the [if] on [Context.openFileOutput]. *)
Definition managed_core (p : Process) : bool :=
  java_class p "java.io.File" && java_member p "java.io.File" "$init"
  && java_class p "java.io.FileOutputStream"
  && java_member p "java.io.FileOutputStream" "$init"
  && java_class p "java.io.FileInputStream"
  && java_member p "java.io.FileInputStream" "$init"
  && java_class p "android.content.Context"
  && java_class p "android.app.Activity"
  && java_member p "android.app.Activity" "onCreate".

(** The managed hooks installed when the bootstrap gets through. *)
Definition managed_installed (p : Process) : list string :=
  [ T_File; T_FileOutputStream; T_FileInputStream ]
  ++ (if java_member p "android.content.Context" "openFileOutput"
      then [T_openFileOutput] else [])
  ++ [ T_onCreate ]
  ++ (if setupButton_present p then [T_setupButton] else [])
  ++ (if onClick_present p then [T_onClick] else []).

(** The native hooks installed: the attaches run in order inside one
    [try] block, so they stop at the first missing export. *)
Definition native_prefix (p : Process) : list string :=
  if libc_export p "socket" then
    T_socket ::
    (if libc_export p "connect" then
       T_connect ::
       (if libc_export p "send" then
          T_send :: (if libc_export p "recv" then [T_recv] else [])
        else [])
     else [])
  else [].

Definition natives_present (p : Process) : bool :=
  libc_export p "socket" && libc_export p "connect"
  && libc_export p "send" && libc_export p "recv".

(** What one of the two guarded blocks for the application's classes
    does: install the hook, or print the diagnostic with the exception
    that [Java.use] or the member access threw. *)
Definition optional_block_trace (p : Process) (cls member target msg : string)
    : list action :=
  if java_class p cls then
    if java_member p cls member then [Install target]
    else [ConsoleLog
            (msg +:+ exn_toString
                       (TypeError ("Cannot read properties of undefined (reading "
                                     +:+ member +:+ ")")))]
  else [ConsoleLog
          (msg +:+ exn_toString
                     (HostError ("java.lang.ClassNotFoundException: " +:+ cls)))].

(** What the guarded native block does. *)
Definition native_block_trace (p : Process) : list action :=
  map Install (native_prefix p)
  ++ (if natives_present p then []
      else [ConsoleLog "Error setting up native network hooks: Error: expected a pointer"]).

(** The actions of a bootstrap that gets through its unguarded part. *)
Definition bootstrap_trace (p : Process) : list action :=
  [ ConsoleLog "[+] Frida script loaded";
    Install T_File; Install T_FileOutputStream; Install T_FileInputStream ]
  ++ (if java_member p "android.content.Context" "openFileOutput"
      then [Install T_openFileOutput] else [])
  ++ [ Install T_onCreate ]
  ++ optional_block_trace p C_MainActivity "setupFileOperationButton"
       T_setupButton "Could not monitor setupFileOperationButton: "
  ++ optional_block_trace p C_MainActivity1 "onClick"
       T_onClick "Could not monitor MainActivity$1: "
  ++ [ ConsoleLog "[+] Setting up native network monitoring" ]
  ++ native_block_trace p
  ++ [ ConsoleLog "[+] Monitoring setup complete, waiting for operations..." ].

(** The character [c] does not occur in [s]. *)
Fixpoint free_of (c : ascii) (s : string) : bool :=
  match s with
  | EmptyString => true
  | String x rest => negb (Ascii.eqb x c) && free_of c rest
  end.

(** The structured line an interception prints once the script is
    loaded: the managed hooks and [socket] print theirs, the callbacks of
    [connect], [send] and [recv] print none. *)
Definition printed_event (i : interception) : option string :=
  match i with
  | ISocket args =>
      Some (structured T_socket "native"
              (jsonField "domain" (socket_domainName (Js.toInt32 (args 0%nat)))
                 +:+ "," +:+
               jsonField "type" (socket_typeName (Js.toInt32 (args 1%nat)))))
  | IConnect _ | ISend _ | IRecv _ => None
  | _ => managed_event i
  end.

(** The original a managed interception reaches: none when its stack
    capture throws, none for a native interception. *)
Definition forwarded_call (i : interception) : option (string * list Js.value) :=
  match managed_call i, capture_failure i with
  | Some (_, target, args), None => Some (target, args)
  | _, _ => None
  end.

(** The target of a native interception. *)
Definition native_target (i : interception) : option string :=
  match i with
  | ISocket _ => Some T_socket
  | IConnect _ => Some T_connect
  | ISend _ => Some T_send
  | IRecv _ => Some T_recv
  | IFileInit _ _ | IFileOutputStreamInit _ _ | IFileInputStreamInit _ _
  | IOpenFileOutput _ _ _ => None
  end.

(** The native calls let through, oldest first. *)
Definition proceeded_of (tr : list action) : list string :=
  omap (fun a => match a with ProceedNative t => Some t | _ => None end) tr.

(* ===================================================================== *)
(** ** Basic facts                                                        *)
(* ===================================================================== *)

Example int_toString_examples :
  Js.int_toString 5 = "5" /\ Js.int_toString (-12) = "-12" /\ Js.int_toString 0 = "0".
Proof. repeat split; vm_compute; reflexivity. Qed.

Example indexOf_examples :
  Js.indexOf "at com.example.app.Main.run" "com.example" = 3 /\
  Js.indexOf "libart.so!art_quick" "com.example" = -1.
Proof. split; reflexivity. Qed.

Example toInt32_examples :
  Js.toInt32 5 = 5 /\ Js.toInt32 (2 ^ 32 - 1) = -1 /\ Js.toInt32 (2 ^ 32 + 7) = 7.
Proof. repeat split; reflexivity. Qed.

Lemma string_app_assoc (a b c : string) : (a +:+ b) +:+ c = a +:+ (b +:+ c).
Proof.
  induction a as [|x a IH]; [reflexivity|].
  change (String x ((a +:+ b) +:+ c) = String x (a +:+ b +:+ c)).
  now rewrite IH.
Qed.

Lemma console_of_app tr1 tr2 :
  console_of (tr1 ++ tr2) = console_of tr1 ++ console_of tr2.
Proof. unfold console_of. apply omap_app. Qed.

Lemma forwarded_of_app tr1 tr2 :
  forwarded_of (tr1 ++ tr2) = forwarded_of tr1 ++ forwarded_of tr2.
Proof. unfold forwarded_of. apply omap_app. Qed.

Lemma structured_is_structured name method argsJson :
  is_structured (structured name method argsJson) = true.
Proof. reflexivity. Qed.

(** The structured line of a one-field record, as the hooks spell it. *)
Lemma structured_one_field name method key val :
  structured name method (jsonField key val)
  = jsq "{'type':'api','name':'" +:+ name +:+ jsq "','method':'" +:+ method
      +:+ jsq "','args':{'" +:+ key +:+ jsq "':'" +:+ val +:+ jsq "'}}".
Proof.
  unfold structured, jsonField.
  rewrite !string_app_assoc. reflexivity.
Qed.

Ltac run_hook :=
  unfold step, hook, File_init, FileOutputStream_init, FileInputStream_init,
    Context_openFileOutput, Interceptor_invoke, socket_onEnter,
    call_original, Thread_backtrace, console_log, try_catch, bind, emit,
    lift, ret, throw; simpl.


(** The three hooks that print the literal [unknown] do the same three
    things whatever the receiver is. *)
Lemma FileOutputStream_init_trace this path w :
  trace (step w (IFileOutputStreamInit this path))
  = trace w ++
    [ ConsoleLog ("[FileOutputStream] Opening file output stream: " +:+ Js.ToString path);
      ConsoleLog (structured T_FileOutputStream "unknown" (jsonField "path" (Js.ToString path)));
      CallOriginal T_FileOutputStream [path] ].
Proof.
  rewrite structured_one_field. run_hook.
  destruct (original this [path]); simpl; now rewrite <- !app_assoc.
Qed.

Lemma FileInputStream_init_trace this path w :
  trace (step w (IFileInputStreamInit this path))
  = trace w ++
    [ ConsoleLog ("[FileInputStream] Opening file input stream: " +:+ Js.ToString path);
      ConsoleLog (structured T_FileInputStream "unknown" (jsonField "path" (Js.ToString path)));
      CallOriginal T_FileInputStream [path] ].
Proof.
  rewrite structured_one_field. run_hook.
  destruct (original this [path]); simpl; now rewrite <- !app_assoc.
Qed.

Lemma Context_openFileOutput_trace this fileName mode w :
  trace (step w (IOpenFileOutput this fileName mode))
  = trace w ++
    [ ConsoleLog ("[Context] Opening file output: " +:+ Js.ToString fileName);
      ConsoleLog (structured T_openFileOutput "unknown" (jsonField "fileName" (Js.ToString fileName)));
      CallOriginal T_openFileOutput [fileName; mode] ].
Proof.
  rewrite structured_one_field. run_hook.
  destruct (original this [fileName; mode]); simpl; now rewrite <- !app_assoc.
Qed.

(** *** Call-site resolution *)

(** The gate of the [File] hook is open: its name is in the list. *)
Lemma shouldLogApi_File : shouldLogApi "java.io.File.<init>" = true.
Proof. reflexivity. Qed.

(** A description that matches the application pattern is not empty. *)
Lemma isAppFrame_truthy f : isAppFrame f = true -> Js.truthy_string (toString f) = true.
Proof.
  unfold isAppFrame. destruct (toString f); [discriminate | reflexivity].
Qed.

(** The loop returns the description of the first matching frame and
    leaves [callSite] alone when there is none. *)
Lemma scanFrames_find stack callSite :
  scanFrames stack callSite
  = match List.find isAppFrame stack with
    | Some f => toString f
    | None => callSite
    end.
Proof.
  induction stack as [|f rest IH]; simpl; [reflexivity|].
  destruct (isAppFrame f); [reflexivity | exact IH].
Qed.

Lemma resolveCallSite_resolved stack w :
  resolveCallSite stack w = (Ret (resolved stack), w).
Proof.
  unfold resolveCallSite, firstFrameFallback, resolved.
  rewrite scanFrames_find.
  destruct stack as [|f0 rest]; [reflexivity|].
  destruct (List.find isAppFrame (f0 :: rest)) as [f|] eqn:Hfind.
  - apply List.find_some in Hfind as [_ Happ].
    rewrite (isAppFrame_truthy _ Happ). reflexivity.
  - reflexivity.
Qed.

Lemma File_init_captured this path stack w :
  stack_capture this = inr stack ->
  hook (IFileInit this path) w
  = (match original this [path] with inl e => Throw e | inr v => Ret v end,
     mkWorld
       (trace w ++
        [ Backtrace;
          ConsoleLog ("[File] Creating file: " +:+ Js.ToString path);
          ConsoleLog (structured T_File (resolved stack) (jsonField "path" (Js.ToString path)));
          CallOriginal T_File [path] ])
       (seenEvents w)).
Proof.
  intros Hcap. rewrite structured_one_field.
  unfold hook, File_init. rewrite shouldLogApi_File.
  unfold Thread_backtrace, call_original, console_log, bind, emit, lift.
  rewrite Hcap. unfold ret at 1. simpl.
  rewrite resolveCallSite_resolved. simpl.
  destruct (original this [path]); unfold ret, throw; simpl;
    now rewrite <- !app_assoc.
Qed.

Lemma File_init_capture_throws this path e w :
  stack_capture this = inl e ->
  hook (IFileInit this path) w
  = (Throw e, mkWorld (trace w ++ [Backtrace]) (seenEvents w)).
Proof.
  intros Hcap. unfold hook, File_init. rewrite shouldLogApi_File.
  unfold Thread_backtrace, bind, emit, lift. rewrite Hcap. reflexivity.
Qed.

(** *** [indexOf] finds exactly the strings that contain the pattern *)

Lemma prefix_iff_app (pat s : string) :
  String.prefix pat s = true <-> exists b, s = pat +:+ b.
Proof.
  revert s. induction pat as [|c pat IH]; intros s.
  - split; [intros _; now exists s | now destruct s].
  - destruct s as [|d s]; simpl.
    + split; [discriminate | intros [b Hb]; discriminate].
    + destruct (ascii_dec c d) as [->|Hne].
      * rewrite IH. split; intros [b Hb]; exists b.
        -- change (String d s = String d (pat +:+ b)). now rewrite Hb.
        -- change (String d s = String d (pat +:+ b)) in Hb. congruence.
      * split; [discriminate|]. intros [b Hb].
        change (String d s = String c (pat +:+ b)) in Hb. congruence.
Qed.

Lemma index_some_occurs (pat s : string) (n : nat) :
  String.index 0 pat s = Some n -> exists a b, s = a +:+ pat +:+ b.
Proof.
  revert n. induction s as [|d s IH]; intros n.
  - simpl. destruct pat; [|discriminate]. intros _. now exists "", "".
  - cbn [String.index]. destruct (String.prefix pat (String d s)) eqn:Hp.
    + intros _. apply prefix_iff_app in Hp as [b Hb]. now exists "", b.
    + destruct (String.index 0 pat s) as [m|] eqn:Hi; [|discriminate].
      intros _. destruct (IH m eq_refl) as (a & b & ->).
      now exists (String d a), b.
Qed.

Lemma occurs_index_some (pat a b : string) :
  exists n, String.index 0 pat (a +:+ pat +:+ b) = Some n.
Proof.
  induction a as [|d a IH].
  - change ("" +:+ pat +:+ b) with (pat +:+ b).
    destruct (pat +:+ b) as [|d s] eqn:Hs.
    + destruct pat; [now exists 0%nat | discriminate].
    + cbn [String.index]. assert (String.prefix pat (String d s) = true) as ->; [|now exists 0%nat].
      apply prefix_iff_app. now exists b.
  - change (String d a +:+ pat +:+ b) with (String d (a +:+ pat +:+ b)).
    cbn [String.index].
    destruct (String.prefix pat (String d (a +:+ pat +:+ b))); [now exists 0%nat|].
    destruct IH as [n ->]. now exists (S n).
Qed.

(** X8: the application predicate of the script holds exactly of the
    descriptions that contain [com.example] somewhere (case-sensitive,
    at any position). *)
Lemma isAppFrame_iff f :
  isAppFrame f = true <-> exists a b, toString f = a +:+ "com.example" +:+ b.
Proof.
  unfold isAppFrame, Js.indexOf. split.
  - destruct (String.index 0 "com.example" (toString f)) as [n|] eqn:Hi;
      [intros _; eauto using index_some_occurs | discriminate].
  - intros (a & b & ->).
    destruct (occurs_index_some "com.example" a b) as [n ->].
    apply Z.leb_le. lia.
Qed.

(** *** New lines of a step *)

Lemma console_step_app w w' tr :
  trace w' = trace w ++ tr -> console w' = console w ++ console_of tr.
Proof. unfold console. intros ->. apply console_of_app. Qed.

Lemma structured_lines_step_app w w' tr :
  trace w' = trace w ++ tr ->
  structured_lines w' = structured_lines w ++ List.filter is_structured (console_of tr).
Proof.
  intros H. unfold structured_lines.
  now rewrite (console_step_app _ _ _ H), List.filter_app.
Qed.

Lemma forwarded_step_app w w' tr :
  trace w' = trace w ++ tr -> forwarded w' = forwarded w ++ forwarded_of tr.
Proof. unfold forwarded. intros ->. apply forwarded_of_app. Qed.


Lemma File_init_trace this path stack w :
  stack_capture this = inr stack ->
  trace (step w (IFileInit this path))
  = trace w ++
    [ Backtrace;
      ConsoleLog ("[File] Creating file: " +:+ Js.ToString path);
      ConsoleLog (structured T_File (resolved stack) (jsonField "path" (Js.ToString path)));
      CallOriginal T_File [path] ].
Proof. intros H. unfold step. now rewrite (File_init_captured _ _ _ _ H). Qed.

(** The socket hook never throws and prints its two lines. *)
Lemma socket_trace args w :
  trace (step w (ISocket args))
  = trace w ++
    [ ConsoleLog ("[Native] Creating socket: domain="
                    +:+ socket_domainName (Js.toInt32 (args 0%nat))
                    +:+ ", type=" +:+ socket_typeName (Js.toInt32 (args 1%nat)));
      ConsoleLog (structured T_socket "native"
                    (jsonField "domain" (socket_domainName (Js.toInt32 (args 0%nat)))
                       +:+ "," +:+
                     jsonField "type" (socket_typeName (Js.toInt32 (args 1%nat)))));
      ProceedNative T_socket ].
Proof.
  unfold structured, jsonField. rewrite !string_app_assoc.
  run_hook. now rewrite <- !app_assoc.
Qed.

(* ===================================================================== *)
(** ** Call-site resolution (claims C5, C6, C10)                          *)
(* ===================================================================== *)

Lemma find_first_match {A} (P : A -> bool) (pre : list A) (x : A) (post : list A) :
  forallb (fun y => negb (P y)) pre = true -> P x = true ->
  List.find P (pre ++ x :: post) = Some x.
Proof.
  induction pre as [|y pre IH]; simpl; intros Hpre Hx.
  - now rewrite Hx.
  - apply andb_prop in Hpre as [Hy Hpre].
    apply negb_true_iff in Hy. rewrite Hy. now apply IH.
Qed.

Lemma find_no_match {A} (P : A -> bool) (l : list A) :
  forallb (fun y => negb (P y)) l = true -> List.find P l = None.
Proof.
  induction l as [|y l IH]; simpl; intros H; [reflexivity|].
  apply andb_prop in H as [Hy Hl].
  apply negb_true_iff in Hy. rewrite Hy. now apply IH.
Qed.

(** C5, as stated, fails: with an empty captured stack the resolution
    yields the empty string, not [unknown], and the structured line of
    the [File] hook carries an empty [method] field. *)
Lemma empty_stack_is_not_unknown :
  fst (resolveCallSite [] initial_world) = Ret "" /\
  fst (resolveCallSite [] initial_world) <> Ret "unknown" /\
  console (step initial_world (IFileInit (receiver_with []) (Js.VString "/data/a.txt")))
  = [ "[File] Creating file: /data/a.txt";
      jsq "{'type':'api','name':'java.io.File.<init>','method':'','args':{'path':'/data/a.txt'}}" ].
Proof. split; [reflexivity | split; [discriminate | reflexivity]]. Qed.

(** C5 (amended): if the captured stack-frame sequence is empty,
    call-site resolution returns the empty string without raising, and
    the structured line emitted by the [File] hook has an empty [method]
    field. *)
Theorem empty_stack_resolves_to_empty (this : Receiver) (path : Js.value) (w : World) :
  stack_capture this = inr [] ->
  resolveCallSite [] w = (Ret "", w) /\
  console (step w (IFileInit this path))
  = console w ++
    [ "[File] Creating file: " +:+ Js.ToString path;
      structured T_File "" (jsonField "path" (Js.ToString path)) ].
Proof.
  intros Hcap. split; [reflexivity|].
  now rewrite (console_step_app _ _ _ (File_init_trace _ path _ w Hcap)).
Qed.

Lemma empty_stack_resolves_to_empty_witness :
  resolveCallSite [] initial_world = (Ret "", initial_world) /\
  console (step initial_world (IFileInit (receiver_with []) (Js.VString "/data/a.txt")))
  = console initial_world ++
    [ "[File] Creating file: " +:+ Js.ToString (Js.VString "/data/a.txt");
      structured T_File "" (jsonField "path" (Js.ToString (Js.VString "/data/a.txt"))) ].
Proof.
  apply (empty_stack_resolves_to_empty (receiver_with []) (Js.VString "/data/a.txt")
           initial_world).
  reflexivity.
Defined.

(** C6: for a non-empty captured stack, resolution returns the
    description of the first frame (most recent first) that matches the
    application predicate, and the description of the first frame when
    none matches; the structured line of the [File] hook carries that
    description in its [method] field. *)
Theorem resolve_prefers_first_app_frame
    (this : Receiver) (path : Js.value) (f0 : DebugSymbol) (rest : list DebugSymbol)
    (w : World) :
  stack_capture this = inr (f0 :: rest) ->
  exists site : string,
    resolveCallSite (f0 :: rest) w = (Ret site, w) /\
    console (step w (IFileInit this path))
    = console w ++
      [ "[File] Creating file: " +:+ Js.ToString path;
        structured T_File site (jsonField "path" (Js.ToString path)) ] /\
    (forall libs f tail,
        f0 :: rest = libs ++ f :: tail ->
        forallb (fun x => negb (isAppFrame x)) libs = true ->
        isAppFrame f = true ->
        site = toString f) /\
    (forallb (fun x => negb (isAppFrame x)) (f0 :: rest) = true ->
     site = toString f0).
Proof.
  intros Hcap. exists (resolved (f0 :: rest)). repeat split.
  - apply resolveCallSite_resolved.
  - now rewrite (console_step_app _ _ _ (File_init_trace _ path _ w Hcap)).
  - intros libs f tail Heq Hlibs Hf. unfold resolved.
    rewrite Heq at 1. now rewrite (find_first_match _ _ _ _ Hlibs Hf).
  - intros Hnone. unfold resolved. now rewrite (find_no_match _ _ Hnone).
Qed.

Lemma resolve_prefers_first_app_frame_witness :
  exists site : string,
    resolveCallSite
      [ mkSymbol "libart.so!art_quick_invoke_stub";
        mkSymbol "com.example.fridatestjavaapp.MainActivity.writeFile";
        mkSymbol "libc.so!open" ] initial_world = (Ret site, initial_world) /\
    console (step initial_world
               (IFileInit
                  (receiver_with
                     [ mkSymbol "libart.so!art_quick_invoke_stub";
                       mkSymbol "com.example.fridatestjavaapp.MainActivity.writeFile";
                       mkSymbol "libc.so!open" ])
                  (Js.VString "/data/a.txt")))
    = console initial_world ++
      [ "[File] Creating file: " +:+ Js.ToString (Js.VString "/data/a.txt");
        structured T_File site (jsonField "path" (Js.ToString (Js.VString "/data/a.txt"))) ] /\
    (forall libs f tail,
        [ mkSymbol "libart.so!art_quick_invoke_stub";
          mkSymbol "com.example.fridatestjavaapp.MainActivity.writeFile";
          mkSymbol "libc.so!open" ] = libs ++ f :: tail ->
        forallb (fun x => negb (isAppFrame x)) libs = true ->
        isAppFrame f = true ->
        site = toString f) /\
    (forallb (fun x => negb (isAppFrame x))
       [ mkSymbol "libart.so!art_quick_invoke_stub";
         mkSymbol "com.example.fridatestjavaapp.MainActivity.writeFile";
         mkSymbol "libc.so!open" ] = true ->
     site = toString (mkSymbol "libart.so!art_quick_invoke_stub")).
Proof.
  apply (resolve_prefers_first_app_frame
           (receiver_with
              [ mkSymbol "libart.so!art_quick_invoke_stub";
                mkSymbol "com.example.fridatestjavaapp.MainActivity.writeFile";
                mkSymbol "libc.so!open" ])
           (Js.VString "/data/a.txt")).
  reflexivity.
Defined.

(** The scenario of the specification, evaluated: the application frame
    is reported although a runtime frame is more recent. *)
Example file_from_app_frame :
  console (step initial_world
             (IFileInit
                (receiver_with
                   [ mkSymbol "libart.so!art_quick_invoke_stub";
                     mkSymbol "com.example.fridatestjavaapp.MainActivity.writeFile";
                     mkSymbol "libc.so!open" ])
                (Js.VString "/data/a.txt")))
  = [ "[File] Creating file: /data/a.txt";
      jsq "{'type':'api','name':'java.io.File.<init>','method':'com.example.fridatestjavaapp.MainActivity.writeFile','args':{'path':'/data/a.txt'}}" ].
Proof. reflexivity. Qed.


(* ===================================================================== *)
(** ** The socket hook (claim C9)                                         *)
(* ===================================================================== *)

Lemma socket_domainName_cases (d : Z) :
  socket_domainName d
  = if d =? 0 then "AF_UNSPEC"
    else if d =? 1 then "AF_UNIX"
    else if d =? 2 then "AF_INET"
    else if d =? 10 then "AF_INET6"
    else Js.int_toString d.
Proof.
  destruct d as [|p|p]; [reflexivity| |reflexivity].
  do 4 (try (destruct p as [p|p|]; try reflexivity)).
Qed.

Lemma socket_typeName_cases (t : Z) :
  socket_typeName t
  = if t =? 1 then "SOCK_STREAM"
    else if t =? 2 then "SOCK_DGRAM"
    else if t =? 3 then "SOCK_RAW"
    else Js.int_toString t.
Proof.
  destruct t as [|p|p]; [reflexivity| |reflexivity].
  do 2 (try (destruct p as [p|p|]; try reflexivity)).
Qed.

(** C9: every interception of [socket] emits its structured line; the
    [domain] field is AF_UNSPEC, AF_UNIX, AF_INET, AF_INET6 for the
    domain values 0, 1, 2, 10 and the decimal text of the value
    otherwise, and the [type] field is SOCK_STREAM, SOCK_DGRAM, SOCK_RAW
    for 1, 2, 3 and the decimal text otherwise. *)
Theorem socket_event_on_every_call (args : NativeArgs) (w : World) :
  structured_lines (step w (ISocket args))
  = structured_lines w ++
    [ structured "libc.socket" "native"
        (jsonField "domain" (socket_domainName (Js.toInt32 (args 0%nat)))
           +:+ "," +:+
         jsonField "type" (socket_typeName (Js.toInt32 (args 1%nat)))) ] /\
  (forall d : Z,
      socket_domainName d
      = if d =? 0 then "AF_UNSPEC"
        else if d =? 1 then "AF_UNIX"
        else if d =? 2 then "AF_INET"
        else if d =? 10 then "AF_INET6"
        else Js.int_toString d) /\
  (forall t : Z,
      socket_typeName t
      = if t =? 1 then "SOCK_STREAM"
        else if t =? 2 then "SOCK_DGRAM"
        else if t =? 3 then "SOCK_RAW"
        else Js.int_toString t).
Proof.
  split; [|split].
  - now rewrite (structured_lines_step_app _ _ _ (socket_trace args w)).
  - exact socket_domainName_cases.
  - exact socket_typeName_cases.
Qed.

(** An IPv4 stream socket and an unnamed domain and type. *)
Example socket_lines :
  console (run [ ISocket (fun n => match n with 0%nat => 2 | 1%nat => 1 | _ => 0 end);
                 ISocket (fun n => match n with 0%nat => 16 | 1%nat => 5 | _ => 0 end) ]
             initial_world)
  = [ "[Native] Creating socket: domain=AF_INET, type=SOCK_STREAM";
      jsq "{'type':'api','name':'libc.socket','method':'native','args':{'domain':'AF_INET','type':'SOCK_STREAM'}}";
      "[Native] Creating socket: domain=16, type=5";
      jsq "{'type':'api','name':'libc.socket','method':'native','args':{'domain':'16','type':'5'}}" ].
Proof. vm_compute. reflexivity. Qed.

(* ===================================================================== *)
(** ** Managed hooks: forwarding and emission (claims C1, C7)             *)
(* ===================================================================== *)

Lemma simple_hook_outcome this target args l1 l2 w :
  (console_log l1 ;;; console_log l2 ;;; call_original this target args) w
  = (uninstrumented this args,
     mkWorld (trace w ++ [ConsoleLog l1; ConsoleLog l2; CallOriginal target args])
       (seenEvents w)).
Proof.
  unfold uninstrumented, call_original, console_log, bind, emit, lift. simpl.
  destruct (original this args); unfold ret, throw; simpl;
    now rewrite <- !app_assoc.
Qed.

(** C1, as stated, fails: when the stack capture of the [File] hook
    throws, the hook throws too and the original constructor, which
    would have returned normally, is never invoked. *)
Lemma capture_failure_suppresses_original :
  uninstrumented failing_capture [Js.VString "/data/a.txt"] = Ret Js.VUndefined /\
  fst (hook (IFileInit failing_capture (Js.VString "/data/a.txt")) initial_world)
  = Throw (HostError "unable to capture a backtrace") /\
  forwarded (step initial_world (IFileInit failing_capture (Js.VString "/data/a.txt")))
  = [].
Proof. repeat split. Qed.

Lemma managed_step_emits i line w :
  managed_event i = Some line ->
  structured_lines (step w i) = structured_lines w ++ [line].
Proof.
  destruct i as [r path|r path|r path|r fileName mode| | | |];
    simpl; try discriminate.
  - destruct (stack_capture r) as [e|stack] eqn:Hcap; [discriminate|].
    intros [= <-].
    now rewrite (structured_lines_step_app _ _ _ (File_init_trace _ path _ w Hcap)).
  - intros [= <-].
    now rewrite (structured_lines_step_app _ _ _ (FileOutputStream_init_trace r path w)).
  - intros [= <-].
    now rewrite (structured_lines_step_app _ _ _ (FileInputStream_init_trace r path w)).
  - intros [= <-].
    now rewrite (structured_lines_step_app _ _ _
                   (Context_openFileOutput_trace r fileName mode w)).
Qed.

(** C7, as stated, fails: an interception of [File.<init>] whose stack
    capture throws prints nothing, so three such constructions add no
    structured line. *)
Lemma throwing_captures_emit_nothing :
  managed_call (IFileInit failing_capture (Js.VString "/data/a.txt"))
  = Some (failing_capture, "java.io.File.<init>", [Js.VString "/data/a.txt"]) /\
  structured_lines
    (run (replicate 3 (IFileInit failing_capture (Js.VString "/data/a.txt")))
       initial_world)
  = [] /\
  console
    (run (replicate 3 (IFileInit failing_capture (Js.VString "/data/a.txt")))
       initial_world)
  = [].
Proof. repeat split. Qed.

(** C7 (amended): managed events are never deduplicated.  In a run of
    interceptions of managed monitored targets whose stack captures do
    not throw, every interception adds its structured line, whatever was
    emitted before and whatever the deduplication store holds; [n] such
    interceptions give [n] lines. *)
Theorem managed_events_never_deduplicated (calls : list interception) (w : World) :
  Forall (fun i => is_Some (managed_event i)) calls ->
  structured_lines (run calls w) = structured_lines w ++ omap managed_event calls /\
  List.length (omap managed_event calls) = List.length calls.
Proof.
  revert w. induction calls as [|i calls IH]; intros w Hall.
  - simpl. now rewrite app_nil_r.
  - apply Forall_cons in Hall as [[line Hline] Hall].
    destruct (IH (step w i) Hall) as [IHlines IHlen].
    split.
    + change (run (i :: calls) w) with (run calls (step w i)).
      rewrite IHlines, (managed_step_emits _ _ _ Hline).
      cbn [omap list_omap]. rewrite Hline. now rewrite <- app_assoc.
    + cbn [omap list_omap]. rewrite Hline. cbn [List.length]. now rewrite IHlen.
Qed.

Lemma managed_events_never_deduplicated_witness :
  structured_lines
    (run (replicate 3 (IFileOutputStreamInit (receiver_with []) (Js.VString "/data/a.txt")))
       initial_world)
  = structured_lines initial_world ++
    omap managed_event
      (replicate 3 (IFileOutputStreamInit (receiver_with []) (Js.VString "/data/a.txt"))) /\
  List.length
    (omap managed_event
       (replicate 3 (IFileOutputStreamInit (receiver_with []) (Js.VString "/data/a.txt"))))
  = List.length
      (replicate 3 (IFileOutputStreamInit (receiver_with []) (Js.VString "/data/a.txt"))).
Proof.
  apply (managed_events_never_deduplicated
           (replicate 3 (IFileOutputStreamInit (receiver_with []) (Js.VString "/data/a.txt")))
           initial_world).
  repeat constructor; simpl; eauto.
Defined.

(** Three identical constructions of a file output stream give three
    identical structured lines. *)
Example three_identical_managed_calls :
  structured_lines
    (run (replicate 3 (IFileOutputStreamInit (receiver_with []) (Js.VString "/data/a.txt")))
       initial_world)
  = replicate 3
      (jsq "{'type':'api','name':'java.io.FileOutputStream.<init>','method':'unknown','args':{'path':'/data/a.txt'}}").
Proof. reflexivity. Qed.

(* ===================================================================== *)
(** ** Native hooks with a deduplication test (claims C2, C3, C4)         *)
(* ===================================================================== *)

Lemma dedup_body_invoke target eventId diag line args w :
  (Interceptor_invoke target (fun _ => dedup_body eventId diag line) args ;;;
   ret Js.VUndefined) w
  = (Ret Js.VUndefined,
     match seenEvents w with
     | None =>
         mkWorld (trace w ++ [ScriptError (ReferenceError "seenEvents");
                              ProceedNative target]) None
     | Some o =>
         if default false (o !! eventId)
         then mkWorld (trace w ++ [ProceedNative target]) (Some o)
         else mkWorld (trace w ++ [ConsoleLog diag; ConsoleLog line;
                                   ProceedNative target])
                (Some (<[eventId := true]> o))
     end).
Proof.
  unfold Interceptor_invoke, dedup_body, try_catch, bind, seenEvents_get,
    seenEvents_set, console_log, emit, ret.
  destruct w as [tr [o|]]; simpl.
  - destruct (default false (o !! eventId)); simpl;
      now rewrite <- ?app_assoc.
  - now rewrite <- ?app_assoc.
Qed.

Lemma dedup_step i target key diag line w :
  dedup_event i = Some (target, key, diag, line) ->
  step w i
  = match seenEvents w with
    | None =>
        mkWorld (trace w ++ [ScriptError (ReferenceError "seenEvents");
                             ProceedNative target]) None
    | Some o =>
        if default false (o !! key)
        then mkWorld (trace w ++ [ProceedNative target]) (Some o)
        else mkWorld (trace w ++ [ConsoleLog diag; ConsoleLog line;
                                  ProceedNative target])
               (Some (<[key := true]> o))
    end.
Proof.
  destruct i as [| | | | |args|args|args]; simpl; try discriminate;
    intros [= <- <- <- <-]; unfold step, hook, Interceptor_invoke.
  - assert (connect_onEnter args
            = dedup_body
                ("connect_" +:+ Js.int_toString (Js.toInt32 (args 0%nat)))
                ("[Native] Connect called with sockfd: "
                   +:+ Js.int_toString (Js.toInt32 (args 0%nat)))
                (structured T_connect "native"
                   (jsonField "sockfd" (Js.int_toString (Js.toInt32 (args 0%nat))))))
      as ->.
    { unfold connect_onEnter, dedup_body, structured, jsonField.
      now rewrite !string_app_assoc. }
    pose proof (dedup_body_invoke T_connect) as E.
    unfold Interceptor_invoke in E. now rewrite E.
  - assert (send_onEnter args
            = dedup_body
                ("send_" +:+ Js.int_toString (Js.toInt32 (args 0%nat)) +:+ "_"
                   +:+ Js.int_toString (Js.toInt32 (args 2%nat)))
                ("[Native] Sending " +:+ Js.int_toString (Js.toInt32 (args 2%nat))
                   +:+ " bytes on socket "
                   +:+ Js.int_toString (Js.toInt32 (args 0%nat)))
                (structured T_send "native"
                   (jsonField "sockfd" (Js.int_toString (Js.toInt32 (args 0%nat)))
                      +:+ "," +:+
                    jsonField "size" (Js.int_toString (Js.toInt32 (args 2%nat))))))
      as ->.
    { unfold send_onEnter, dedup_body, structured, jsonField.
      now rewrite !string_app_assoc. }
    pose proof (dedup_body_invoke T_send) as E.
    unfold Interceptor_invoke in E. now rewrite E.
  - assert (recv_onEnter args
            = dedup_body
                ("recv_" +:+ Js.int_toString (Js.toInt32 (args 0%nat)) +:+ "_"
                   +:+ Js.int_toString (Js.toInt32 (args 2%nat)))
                ("[Native] Receiving up to "
                   +:+ Js.int_toString (Js.toInt32 (args 2%nat))
                   +:+ " bytes on socket "
                   +:+ Js.int_toString (Js.toInt32 (args 0%nat)))
                (structured T_recv "native"
                   (jsonField "sockfd" (Js.int_toString (Js.toInt32 (args 0%nat)))
                      +:+ "," +:+
                    jsonField "size" (Js.int_toString (Js.toInt32 (args 2%nat))))))
      as ->.
    { unfold recv_onEnter, dedup_body, structured, jsonField.
      now rewrite !string_app_assoc. }
    pose proof (dedup_body_invoke T_recv) as E.
    unfold Interceptor_invoke in E. now rewrite E.
Qed.

(** *** Forwarding (claim C1) *)

(** A native hook never throws into the intercepted call. *)
Lemma native_hook_returns target onEnter args w :
  fst ((Interceptor_invoke target onEnter args ;;; ret Js.VUndefined) w)
  = Ret Js.VUndefined.
Proof.
  unfold Interceptor_invoke, bind, try_catch, emit, ret.
  destruct (onEnter args w) as [[u|e] w']; reflexivity.
Qed.

(** What an interception of [connect], [send] or [recv] adds to the
    trace ends with the native call being let through, once. *)
Lemma dedup_step_proceeds i target key diag line w :
  dedup_event i = Some (target, key, diag, line) ->
  exists pre : list action,
    trace (step w i) = trace w ++ pre ++ [ProceedNative target] /\
    proceeded_of pre = [] /\
    forwarded_of pre = [].
Proof.
  intros Hev. rewrite (dedup_step _ _ _ _ _ w Hev).
  destruct (seenEvents w) as [o|]; [destruct (default false (o !! key))|].
  - exists []. now repeat split.
  - exists [ConsoleLog diag; ConsoleLog line]. now repeat split.
  - exists [ScriptError (ReferenceError "seenEvents")]. now repeat split.
Qed.

(** C1 (amended): for every intercepted call of a monitored target other
    than a [File.<init>] call whose stack capture throws, the invocation
    is forwarded to the original exactly once, as the last action of the
    hook after its logging steps.  For a managed target the caller gets
    the value or exception of the original unchanged; for a native target
    ([socket], [connect], [send], [recv]) the native call is let through
    exactly once after the callback, in every world, also when the
    callback throws.  The hooks contain no [try]: when the stack capture
    of the [File.<init>] hook throws, the exception reaches the caller
    and the original is not invoked. *)
Theorem hook_forwards_last_unless_capture_throws (i : interception) (w : World) :
  match managed_call i with
  | Some (this, target, args) =>
      match capture_failure i with
      | None =>
          fst (hook i w) = uninstrumented this args /\
          forwarded (step w i) = forwarded w ++ [(target, args)] /\
          exists (pre : list action) (line : string),
            trace (step w i) = trace w ++ pre ++ [CallOriginal target args] /\
            managed_event i = Some line /\
            In (ConsoleLog line) pre /\
            forwarded_of pre = []
      | Some e =>
          fst (hook i w) = Throw e /\
          forwarded (step w i) = forwarded w
      end
  | None =>
      exists (target : string) (pre : list action),
        native_target i = Some target /\
        fst (hook i w) = Ret Js.VUndefined /\
        trace (step w i) = trace w ++ pre ++ [ProceedNative target] /\
        proceeded_of pre = [] /\
        forwarded_of pre = []
  end.
Proof.
  destruct i as [r path|r path|r path|r fileName mode|args|args|args|args];
    cbn [managed_call capture_failure managed_event native_target].
  - destruct (stack_capture r) as [e|stack] eqn:Hcap.
    + unfold step. rewrite (File_init_capture_throws _ _ _ _ Hcap).
      split; [reflexivity|].
      unfold forwarded. simpl. rewrite forwarded_of_app. simpl.
      now rewrite app_nil_r.
    + split; [now rewrite (File_init_captured _ _ _ _ Hcap)|].
      split; [now rewrite (forwarded_step_app _ _ _ (File_init_trace _ path _ w Hcap))|].
      eexists [Backtrace; ConsoleLog _; ConsoleLog _], _.
      split; [exact (File_init_trace _ path _ w Hcap)|].
      split; [reflexivity|]. split; [simpl; tauto | reflexivity].
  - split; [unfold hook, FileOutputStream_init; now rewrite simple_hook_outcome|].
    split; [now rewrite (forwarded_step_app _ _ _ (FileOutputStream_init_trace r path w))|].
    eexists [ConsoleLog _; ConsoleLog _], _.
    split; [exact (FileOutputStream_init_trace r path w)|].
    split; [reflexivity|]. split; [simpl; tauto | reflexivity].
  - split; [unfold hook, FileInputStream_init; now rewrite simple_hook_outcome|].
    split; [now rewrite (forwarded_step_app _ _ _ (FileInputStream_init_trace r path w))|].
    eexists [ConsoleLog _; ConsoleLog _], _.
    split; [exact (FileInputStream_init_trace r path w)|].
    split; [reflexivity|]. split; [simpl; tauto | reflexivity].
  - split; [unfold hook, Context_openFileOutput; now rewrite simple_hook_outcome|].
    split; [now rewrite (forwarded_step_app _ _ _
                           (Context_openFileOutput_trace r fileName mode w))|].
    eexists [ConsoleLog _; ConsoleLog _], _.
    split; [exact (Context_openFileOutput_trace r fileName mode w)|].
    split; [reflexivity|]. split; [simpl; tauto | reflexivity].
  - eexists T_socket, [ConsoleLog _; ConsoleLog _].
    split; [reflexivity|]. split; [apply native_hook_returns|].
    split; [exact (socket_trace args w)|]. now split.
  - destruct (dedup_step_proceeds (IConnect args) _ _ _ _ w eq_refl)
      as (pre & Htr & Hp & Hf).
    exists T_connect, pre.
    split; [reflexivity|]. split; [apply native_hook_returns|]. now repeat split.
  - destruct (dedup_step_proceeds (ISend args) _ _ _ _ w eq_refl)
      as (pre & Htr & Hp & Hf).
    exists T_send, pre.
    split; [reflexivity|]. split; [apply native_hook_returns|]. now repeat split.
  - destruct (dedup_step_proceeds (IRecv args) _ _ _ _ w eq_refl)
      as (pre & Htr & Hp & Hf).
    exists T_recv, pre.
    split; [reflexivity|]. split; [apply native_hook_returns|]. now repeat split.
Qed.

Lemma dedup_event_lines i target key diag line :
  dedup_event i = Some (target, key, diag, line) ->
  is_structured diag = false /\ is_structured line = true.
Proof.
  destruct i; simpl; try discriminate; intros [= <- <- <- <-]; now split.
Qed.

(** Hooks without a deduplication test leave the store alone. *)
Lemma step_keeps_store i w :
  dedup_event i = None -> seenEvents (step w i) = seenEvents w.
Proof.
  destruct i as [r path|r path|r path|r fileName mode|args| | |];
    simpl; try discriminate; intros _.
  - destruct (stack_capture r) as [e|stack] eqn:Hcap; unfold step.
    + now rewrite (File_init_capture_throws _ _ _ _ Hcap).
    + now rewrite (File_init_captured _ _ _ _ Hcap).
  - unfold step, hook, FileOutputStream_init. now rewrite simple_hook_outcome.
  - unfold step, hook, FileInputStream_init. now rewrite simple_hook_outcome.
  - unfold step, hook, Context_openFileOutput. now rewrite simple_hook_outcome.
  - reflexivity.
Qed.

Lemma new_structured_app w i tr :
  trace (step w i) = trace w ++ tr ->
  new_structured w i = List.filter is_structured (console_of tr).
Proof.
  intros H. unfold new_structured.
  rewrite (structured_lines_step_app _ _ _ H). apply drop_app_length.
Qed.

Lemma dedup_new_structured i target key diag line w :
  dedup_event i = Some (target, key, diag, line) ->
  new_structured w i
  = match seenEvents w with
    | None => []
    | Some o => if default false (o !! key) then [] else [line]
    end.
Proof.
  intros Hev. destruct (dedup_event_lines _ _ _ _ _ Hev) as [Hd Hl].
  pose proof (dedup_step _ _ _ _ _ w Hev) as Hstep.
  destruct (seenEvents w) as [o|].
  - destruct (default false (o !! key)).
    + apply new_structured_app with (tr := [ProceedNative target]).
      now rewrite Hstep.
    + rewrite (new_structured_app w i
                 [ConsoleLog diag; ConsoleLog line; ProceedNative target]).
      * simpl. now rewrite Hd, Hl.
      * now rewrite Hstep.
  - apply new_structured_app
      with (tr := [ScriptError (ReferenceError "seenEvents"); ProceedNative target]).
    now rewrite Hstep.
Qed.

Lemma marked_step key i w : marked key w -> marked key (step w i).
Proof.
  intros (o & Ho & Hk).
  destruct (dedup_event i) as [[[[t k] d] l]|] eqn:Hev.
  - rewrite (dedup_step _ _ _ _ _ w Hev), Ho.
    destruct (default false (o !! k)).
    + now exists o.
    + exists (<[k := true]> o). split; [reflexivity|].
      destruct (decide (k = key)) as [->|Hne].
      * apply lookup_insert_eq.
      * now rewrite lookup_insert_ne.
  - exists o. split; [|exact Hk]. now rewrite (step_keeps_store _ _ Hev).
Qed.

Lemma marked_silences tk calls w :
  marked (snd tk) w ->
  List.filter (emitting_with tk) (emissions calls w) = [].
Proof.
  revert w. induction calls as [|i calls IH]; intros w Hm; [reflexivity|].
  simpl. rewrite (IH _ (marked_step _ i _ Hm)).
  unfold emitting_with at 1. simpl.
  destruct (bool_decide (dedup_key i = Some tk)) eqn:Hkey; [|reflexivity].
  apply bool_decide_eq_true in Hkey. unfold dedup_key in Hkey.
  destruct (dedup_event i) as [[[[t k] d] l]|] eqn:Hev; [|discriminate].
  injection Hkey as <-. simpl in Hm. destruct Hm as (o & Ho & Hk).
  rewrite (dedup_new_structured _ _ _ _ _ w Hev), Ho, Hk. reflexivity.
Qed.

Lemma emitting_marks tk i w :
  emitting_with tk (i, new_structured w i) = true -> marked (snd tk) (step w i).
Proof.
  unfold emitting_with. simpl. intros H.
  apply andb_prop in H as [Hkey Hnew].
  apply bool_decide_eq_true in Hkey. unfold dedup_key in Hkey.
  destruct (dedup_event i) as [[[[t k] d] l]|] eqn:Hev; [|discriminate].
  injection Hkey as <-. simpl.
  rewrite (dedup_new_structured _ _ _ _ _ w Hev) in Hnew.
  rewrite (dedup_step _ _ _ _ _ w Hev).
  destruct (seenEvents w) as [o|]; [|discriminate].
  destruct (default false (o !! k)); [discriminate|].
  exists (<[k := true]> o). split; [reflexivity | apply lookup_insert_eq].
Qed.

Lemma at_most_one_emission tk calls w :
  (List.length (List.filter (emitting_with tk) (emissions calls w)) <= 1)%nat.
Proof.
  revert w. induction calls as [|i calls IH]; intros w; simpl; [lia|].
  destruct (emitting_with tk (i, new_structured w i)) eqn:Hemit.
  - rewrite (marked_silences tk calls _ (emitting_marks _ _ _ Hemit)). simpl. lia.
  - apply IH.
Qed.

(** *** The script never binds [seenEvents] *)

Lemma keeps_store_ret {A} (a : A) : keeps_store (ret a).
Proof. now intros w. Qed.

Lemma keeps_store_throw {A} (e : exn) : keeps_store (@throw A e).
Proof. now intros w. Qed.

Lemma keeps_store_emit a : keeps_store (emit a).
Proof. now intros w. Qed.

Lemma keeps_store_bind {A B} (m : M A) (k : A -> M B) :
  keeps_store m -> (forall a, keeps_store (k a)) -> keeps_store (bind m k).
Proof.
  intros Hm Hk w. unfold bind. specialize (Hm w).
  destruct (m w) as [[a|e] w']; simpl in *; [|exact Hm].
  now rewrite (Hk a w').
Qed.

Lemma keeps_store_try_catch {A} (m : M A) (h : exn -> M A) :
  keeps_store m -> (forall e, keeps_store (h e)) -> keeps_store (try_catch m h).
Proof.
  intros Hm Hh w. unfold try_catch. specialize (Hm w).
  destruct (m w) as [[a|e] w']; simpl in *; [exact Hm|].
  now rewrite (Hh e w').
Qed.

Lemma keeps_store_if {A} (b : bool) (m1 m2 : M A) :
  keeps_store m1 -> keeps_store m2 -> keeps_store (if b then m1 else m2).
Proof. now destruct b. Qed.

Create HintDb store discriminated.
#[local] Hint Resolve keeps_store_ret keeps_store_throw keeps_store_emit
  keeps_store_if : store.
#[local] Hint Extern 2 (keeps_store (bind _ _)) =>
  apply keeps_store_bind; [|intros ?] : store.
#[local] Hint Extern 2 (keeps_store (try_catch _ _)) =>
  apply keeps_store_try_catch; [|intros ?] : store.
#[local] Hint Unfold Java_use set_implementation Interceptor_attach console_log
  : store.

Lemma main_keeps_store p : keeps_store (main p).
Proof. unfold main. autounfold with store. auto 40 with store. Qed.

(** Whatever the process, the hooks start without a binding for
    [seenEvents]. *)
Lemma loaded_store_unbound p : seenEvents (loaded p) = None.
Proof. unfold loaded. now rewrite main_keeps_store. Qed.

(** Without a binding, no interception creates one. *)
Lemma unbound_step i w : seenEvents w = None -> seenEvents (step w i) = None.
Proof.
  intros Hw. destruct (dedup_event i) as [[[[t k] d] l]|] eqn:Hev.
  - now rewrite (dedup_step _ _ _ _ _ w Hev), Hw.
  - now rewrite (step_keeps_store _ _ Hev).
Qed.

Lemma unbound_run calls w : seenEvents w = None -> seenEvents (run calls w) = None.
Proof.
  revert w. induction calls as [|i calls IH]; intros w Hw; [exact Hw|].
  apply IH. now apply unbound_step.
Qed.

(** X10: over the whole life of a process, whatever its symbols and
    whatever happened before, an interception of [connect], [send] or
    [recv] throws a [ReferenceError] in its callback (reported to the
    host, the native call proceeds) and adds no structured line. *)
Lemma dedup_hooks_silent p calls i target key diag line :
  dedup_event i = Some (target, key, diag, line) ->
  trace (step (run calls (loaded p)) i)
  = trace (run calls (loaded p))
    ++ [ScriptError (ReferenceError "seenEvents"); ProceedNative target] /\
  new_structured (run calls (loaded p)) i = [].
Proof.
  intros Hev.
  pose proof (unbound_run calls _ (loaded_store_unbound p)) as Hnone.
  split.
  - now rewrite (dedup_step _ _ _ _ _ _ Hev), Hnone.
  - now rewrite (dedup_new_structured _ _ _ _ _ _ Hev), Hnone.
Qed.

(** Had [seenEvents] been bound to an object, the first interception
    with a fresh key would have printed its structured line. *)
Lemma fresh_key_emits_when_bound i target key diag line w o :
  dedup_event i = Some (target, key, diag, line) ->
  seenEvents w = Some o -> o !! key = None ->
  new_structured w i = [line].
Proof.
  intros Hev Ho Hk.
  now rewrite (dedup_new_structured _ _ _ _ _ _ Hev), Ho, Hk.
Qed.

(** C2, as stated, fails for [socket]: two interceptions with the same
    domain and type print the same structured line twice. *)
Lemma socket_events_repeat :
  structured_lines
    (run [ISocket (args_of [2; 1; 0]); ISocket (args_of [2; 1; 0])]
       (loaded full_process))
  = [ jsq "{'type':'api','name':'libc.socket','method':'native','args':{'domain':'AF_INET','type':'SOCK_STREAM'}}";
      jsq "{'type':'api','name':'libc.socket','method':'native','args':{'domain':'AF_INET','type':'SOCK_STREAM'}}" ].
Proof. vm_compute. reflexivity. Qed.

(** C2 (amended): [socket] events are not deduplicated, every
    interception of [socket] adds its structured line; for [connect],
    [send] and [recv] and every (target, key) pair, at most one
    interception carrying that pair adds a structured line over a whole
    run, from any starting world. *)
Theorem native_dedup_by_design (calls : list interception) (w : World) :
  (forall (w' : World) (args : NativeArgs),
      new_structured w' (ISocket args)
      = [ structured "libc.socket" "native"
            (jsonField "domain" (socket_domainName (Js.toInt32 (args 0%nat)))
               +:+ "," +:+
             jsonField "type" (socket_typeName (Js.toInt32 (args 1%nat)))) ]) /\
  (forall tk : string * string,
      (List.length (List.filter (emitting_with tk) (emissions calls w)) <= 1)%nat).
Proof.
  split.
  - intros w' args. now rewrite (new_structured_app _ _ _ (socket_trace args w')).
  - intros tk. apply at_most_one_emission.
Qed.

(** C3 on the code: [connect] on descriptor 5, twice, once the script is
    loaded.  Each callback stops with a [ReferenceError] at the read of
    [seenEvents]; nothing is printed. *)
Theorem connect_twice_prints_nothing :
  trace (run [IConnect (args_of [5]); IConnect (args_of [5])] (loaded full_process))
  = trace (loaded full_process) ++
    [ ScriptError (ReferenceError "seenEvents"); ProceedNative "libc.connect";
      ScriptError (ReferenceError "seenEvents"); ProceedNative "libc.connect" ] /\
  console (run [IConnect (args_of [5]); IConnect (args_of [5])] (loaded full_process))
  = console (loaded full_process) /\
  structured_lines
    (run [IConnect (args_of [5]); IConnect (args_of [5])] (loaded full_process))
  = [].
Proof. vm_compute. repeat split. Qed.

(** With [seenEvents] bound to an empty object the same two calls print
    one structured line, for descriptor 5. *)
Example connect_twice_when_bound :
  structured_lines
    (run [IConnect (args_of [5]); IConnect (args_of [5])] (mkWorld [] (Some ∅)))
  = [ jsq "{'type':'api','name':'libc.connect','method':'native','args':{'sockfd':'5'}}" ].
Proof. vm_compute. reflexivity. Qed.

(** C4 on the code: [send] on descriptor 5 with 10, 20 and again 10
    bytes, once the script is loaded.  Each callback stops with a
    [ReferenceError]; nothing is printed. *)
Theorem send_sizes_print_nothing :
  trace (run [ ISend (args_of [5; 0; 10]); ISend (args_of [5; 0; 20]);
               ISend (args_of [5; 0; 10]) ] (loaded full_process))
  = trace (loaded full_process) ++
    [ ScriptError (ReferenceError "seenEvents"); ProceedNative "libc.send";
      ScriptError (ReferenceError "seenEvents"); ProceedNative "libc.send";
      ScriptError (ReferenceError "seenEvents"); ProceedNative "libc.send" ] /\
  structured_lines
    (run [ ISend (args_of [5; 0; 10]); ISend (args_of [5; 0; 20]);
           ISend (args_of [5; 0; 10]) ] (loaded full_process))
  = [].
Proof. vm_compute. repeat split. Qed.

(** With [seenEvents] bound to an empty object the three calls print two
    structured lines, one per size. *)
Example send_sizes_when_bound :
  structured_lines
    (run [ ISend (args_of [5; 0; 10]); ISend (args_of [5; 0; 20]);
           ISend (args_of [5; 0; 10]) ] (mkWorld [] (Some ∅)))
  = [ jsq "{'type':'api','name':'libc.send','method':'native','args':{'sockfd':'5','size':'10'}}";
      jsq "{'type':'api','name':'libc.send','method':'native','args':{'sockfd':'5','size':'20'}}" ].
Proof. vm_compute. reflexivity. Qed.

(* ===================================================================== *)
(** ** Bootstrap: absent symbols (claim C8)                               *)
(* ===================================================================== *)

(** C8, as stated, fails: when only the export [socket] is absent, the
    hooks of [connect], [send] and [recv], whose exports are present,
    are not installed either. *)
Lemma missing_socket_skips_other_native_hooks :
  libc_export without_socket "connect" = true /\
  libc_export without_socket "send" = true /\
  libc_export without_socket "recv" = true /\
  installed (loaded without_socket)
  = [ "java.io.File.<init>"; "java.io.FileOutputStream.<init>";
      "java.io.FileInputStream.<init>"; "android.content.Context.openFileOutput";
      "android.app.Activity.onCreate";
      "com.example.fridatestjavaapp.MainActivity.setupFileOperationButton";
      "com.example.fridatestjavaapp.MainActivity$1.onClick" ] /\
  console (loaded without_socket)
  = [ "[+] Frida script loaded";
      "[+] Setting up native network monitoring";
      "Error setting up native network hooks: Error: expected a pointer";
      "[+] Monitoring setup complete, waiting for operations..." ].
Proof. vm_compute. repeat split. Qed.

(** An absent core class is not recovered at all: the bootstrap stops
    with the exception, without a diagnostic line, and no later hook is
    installed. *)
Example missing_core_class_aborts :
  fst (main without_FileOutputStream initial_world)
  = Throw (HostError "java.lang.ClassNotFoundException: java.io.FileOutputStream") /\
  installed (loaded without_FileOutputStream) = ["java.io.File.<init>"] /\
  console (loaded without_FileOutputStream) = ["[+] Frida script loaded"].
Proof. vm_compute. repeat split. Qed.

(** *** The bootstrap, block by block *)

Lemma managed_core_facts p :
  managed_core p = true ->
  java_class p "java.io.File" = true /\
  java_member p "java.io.File" "$init" = true /\
  java_class p "java.io.FileOutputStream" = true /\
  java_member p "java.io.FileOutputStream" "$init" = true /\
  java_class p "java.io.FileInputStream" = true /\
  java_member p "java.io.FileInputStream" "$init" = true /\
  java_class p "android.content.Context" = true /\
  java_class p "android.app.Activity" = true /\
  java_member p "android.app.Activity" "onCreate" = true.
Proof.
  unfold managed_core. intros H.
  repeat (apply andb_prop in H as [H ?]). repeat split; assumption.
Qed.

Lemma bind_Ret {A B} (m : M A) (k : A -> M B) w a w' :
  m w = (Ret a, w') -> bind m k w = k a w'.
Proof. unfold bind. now intros ->. Qed.

Lemma console_log_run s w :
  console_log s w = (Ret tt, mkWorld (trace w ++ [ConsoleLog s]) (seenEvents w)).
Proof. reflexivity. Qed.

Lemma Java_use_run p cls w :
  java_class p cls = true -> Java_use p cls w = (Ret tt, w).
Proof. unfold Java_use. now intros ->. Qed.

Lemma set_implementation_run p cls member t w :
  java_member p cls member = true ->
  set_implementation p cls member t w
  = (Ret tt, mkWorld (trace w ++ [Install t]) (seenEvents w)).
Proof. unfold set_implementation. now intros ->. Qed.

Lemma guarded_install_run (b : bool) t w :
  (if b then emit (Install t) else ret tt) w
  = (Ret tt, mkWorld (trace w ++ (if b then [Install t] else [])) (seenEvents w)).
Proof. destruct b, w; simpl; [reflexivity | now rewrite app_nil_r]. Qed.

Lemma optional_block_run p cls member t msg w :
  try_catch (Java_use p cls ;;; set_implementation p cls member t)
    (fun e => console_log (msg +:+ exn_toString e)) w
  = (Ret tt,
     mkWorld (trace w ++ optional_block_trace p cls member t msg) (seenEvents w)).
Proof.
  unfold optional_block_trace, try_catch, bind, Java_use, set_implementation.
  destruct (java_class p cls); [destruct (java_member p cls member)|]; reflexivity.
Qed.

Lemma native_block_run p w :
  try_catch
    (Interceptor_attach p "socket" T_socket ;;;
     Interceptor_attach p "connect" T_connect ;;;
     Interceptor_attach p "send" T_send ;;;
     Interceptor_attach p "recv" T_recv)
    (fun e => console_log ("Error setting up native network hooks: "
                             +:+ exn_toString e)) w
  = (Ret tt, mkWorld (trace w ++ native_block_trace p) (seenEvents w)).
Proof.
  unfold native_block_trace, native_prefix, natives_present, try_catch, bind,
    Interceptor_attach.
  destruct (libc_export p "socket"); [|reflexivity].
  destruct (libc_export p "connect");
    [|unfold emit, throw, console_log, emit; simpl;
      rewrite <- ?app_assoc; reflexivity].
  destruct (libc_export p "send");
    [|unfold emit, throw, console_log, emit; simpl;
      rewrite <- ?app_assoc; reflexivity].
  destruct (libc_export p "recv");
    unfold emit, throw, console_log, emit; simpl;
    rewrite <- ?app_assoc; reflexivity.
Qed.

Lemma main_with_managed_core p :
  managed_core p = true ->
  main p initial_world = (Ret tt, mkWorld (bootstrap_trace p) None).
Proof.
  intros Hcore.
  destruct (managed_core_facts p Hcore)
    as (H1 & H2 & H3 & H4 & H5 & H6 & H7 & H8 & H9).
  unfold main.
  repeat (erewrite bind_Ret;
          [| first [ apply Java_use_run; assumption
                   | apply set_implementation_run; assumption
                   | apply optional_block_run
                   | apply native_block_run
                   | apply guarded_install_run
                   | apply console_log_run ] ]).
  rewrite console_log_run. unfold bootstrap_trace. simpl.
  now rewrite <- ?app_assoc.
Qed.

(** C8 (amended): if the symbol of one of the two application-specific
    targets ([MainActivity.setupFileOperationButton],
    [MainActivity$1.onClick]) is absent while the other symbols are
    present, the bootstrap completes, registration of that one target is
    skipped with a diagnostic line, and the hook of every other target is
    installed. *)
Theorem optional_target_skipped_alone (p : Process) :
  core_present p ->
  fst (main p initial_world) = Ret tt /\
  installed (loaded p)
  = [ T_File; T_FileOutputStream; T_FileInputStream; T_openFileOutput; T_onCreate ]
    ++ (if setupButton_present p then [T_setupButton] else [])
    ++ (if onClick_present p then [T_onClick] else [])
    ++ [ T_socket; T_connect; T_send; T_recv ] /\
  (setupButton_present p = false ->
   exists e, In ("Could not monitor setupFileOperationButton: " +:+ exn_toString e)
               (console (loaded p))) /\
  (onClick_present p = false ->
   exists e, In ("Could not monitor MainActivity$1: " +:+ exn_toString e)
               (console (loaded p))).
Proof.
  intros (H1 & H2 & H3 & H4 & H5 & H6 & H7 & H8 & H9 & H10 & H11 & H12 & H13 & H14).
  assert (Hcore : managed_core p = true).
  { unfold managed_core. now rewrite H1, H2, H3, H4, H5, H6, H7, H9, H10. }
  unfold loaded. rewrite (main_with_managed_core p Hcore).
  unfold bootstrap_trace, native_block_trace, native_prefix, natives_present,
    optional_block_trace, setupButton_present, onClick_present.
  rewrite H8, H11, H12, H13, H14.
  destruct (java_class p C_MainActivity);
    destruct (java_member p C_MainActivity "setupFileOperationButton");
    destruct (java_class p C_MainActivity1);
    destruct (java_member p C_MainActivity1 "onClick");
    (split; [reflexivity|]); (split; [reflexivity|]);
    (split; intros Hp; try discriminate Hp);
    eexists; cbn -[String.append exn_toString]; eauto 12.
Qed.

Lemma optional_target_skipped_alone_witness :
  fst (main without_MainActivity initial_world) = Ret tt /\
  installed (loaded without_MainActivity)
  = [ T_File; T_FileOutputStream; T_FileInputStream; T_openFileOutput; T_onCreate ]
    ++ (if setupButton_present without_MainActivity then [T_setupButton] else [])
    ++ (if onClick_present without_MainActivity then [T_onClick] else [])
    ++ [ T_socket; T_connect; T_send; T_recv ] /\
  (setupButton_present without_MainActivity = false ->
   exists e, In ("Could not monitor setupFileOperationButton: " +:+ exn_toString e)
               (console (loaded without_MainActivity))) /\
  (onClick_present without_MainActivity = false ->
   exists e, In ("Could not monitor MainActivity$1: " +:+ exn_toString e)
               (console (loaded without_MainActivity))).
Proof.
  apply (optional_target_skipped_alone without_MainActivity).
  unfold core_present. simpl. repeat split; reflexivity.
Defined.

(** With [MainActivity] absent, its hook alone is missing and the
    diagnostic line names the failure. *)
Example missing_MainActivity_loaded :
  installed (loaded without_MainActivity)
  = [ "java.io.File.<init>"; "java.io.FileOutputStream.<init>";
      "java.io.FileInputStream.<init>"; "android.content.Context.openFileOutput";
      "android.app.Activity.onCreate";
      "com.example.fridatestjavaapp.MainActivity$1.onClick";
      "libc.socket"; "libc.connect"; "libc.send"; "libc.recv" ] /\
  console (loaded without_MainActivity)
  = [ "[+] Frida script loaded";
      "Could not monitor setupFileOperationButton: Error: java.lang.ClassNotFoundException: com.example.fridatestjavaapp.MainActivity";
      "[+] Setting up native network monitoring";
      "[+] Monitoring setup complete, waiting for operations..." ].
Proof. vm_compute. repeat split. Qed.

(* ===================================================================== *)
(** ** Bootstrap: which hooks can be installed                            *)
(* ===================================================================== *)

Lemma installed_emit a w :
  installed (snd (emit a w))
  = installed w ++ match a with Install t => [t] | _ => [] end.
Proof.
  unfold installed, emit. simpl. rewrite omap_app.
  destruct a; reflexivity.
Qed.

Lemma installs_ret {A} (a : A) : installs (ret a) [].
Proof. intros w. exists []. split; [constructor | now rewrite app_nil_r]. Qed.

Lemma installs_throw {A} (e : exn) l : installs (@throw A e) l.
Proof. intros w. exists []. split; [apply sublist_nil_l | now rewrite app_nil_r]. Qed.

Lemma installs_console_log s : installs (console_log s) [].
Proof.
  intros w. exists []. split; [constructor|].
  unfold console_log. now rewrite installed_emit.
Qed.

Lemma installs_install t : installs (emit (Install t)) [t].
Proof. intros w. exists [t]. split; [reflexivity | apply installed_emit]. Qed.

Lemma installs_weaken {A} (m : M A) l : installs m [] -> installs m l.
Proof.
  intros H w. destruct (H w) as (l' & Hsub & Heq).
  exists l'. split; [|exact Heq].
  apply sublist_nil_r in Hsub as ->. apply sublist_nil_l.
Qed.

Lemma installs_bind {A B} (m : M A) (k : A -> M B) l1 l2 :
  installs m l1 -> (forall a, installs (k a) l2) -> installs (bind m k) (l1 ++ l2).
Proof.
  intros Hm Hk w. unfold bind. destruct (Hm w) as (l1' & Hs1 & He1).
  destruct (m w) as [[a|e] w']; simpl in *.
  - destruct (Hk a w') as (l2' & Hs2 & He2).
    exists (l1' ++ l2'). split; [now apply sublist_app|].
    now rewrite He2, He1, app_assoc.
  - exists l1'. split; [now apply sublist_inserts_r | exact He1].
Qed.

Lemma installs_try_catch {A} (m : M A) (h : exn -> M A) l :
  installs m l -> (forall e, installs (h e) []) -> installs (try_catch m h) l.
Proof.
  intros Hm Hh w. unfold try_catch. destruct (Hm w) as (l' & Hs & He).
  destruct (m w) as [[a|e] w']; simpl in *.
  - now exists l'.
  - destruct (Hh e w') as (l0 & Hs0 & He0).
    apply sublist_nil_r in Hs0 as ->.
    exists l'. split; [exact Hs|]. now rewrite He0, He, app_nil_r.
Qed.

Lemma installs_Java_use p cls : installs (Java_use p cls) [].
Proof.
  unfold Java_use. destruct (java_class p cls);
    [apply installs_ret | apply installs_throw].
Qed.

Lemma installs_set_implementation p cls member t :
  installs (set_implementation p cls member t) [t].
Proof.
  unfold set_implementation. destruct (java_member p cls member);
    [apply installs_install | apply installs_throw].
Qed.

Lemma installs_Interceptor_attach p sym t :
  installs (Interceptor_attach p sym t) [t].
Proof.
  unfold Interceptor_attach. destruct (libc_export p sym);
    [apply installs_install | apply installs_throw].
Qed.

Lemma main_installs p : installs (main p) all_targets.
Proof.
  unfold main.
  change all_targets with
    ([] ++ [] ++ [T_File] ++ [] ++ [T_FileOutputStream] ++ [] ++ [T_FileInputStream]
       ++ [] ++ [T_openFileOutput] ++ [] ++ [T_onCreate]
       ++ ([] ++ [T_setupButton]) ++ ([] ++ [T_onClick]) ++ []
       ++ ([T_socket] ++ [T_connect] ++ [T_send] ++ [T_recv]) ++ []).
  repeat first
    [ apply installs_console_log
    | apply installs_Java_use
    | apply installs_set_implementation
    | apply installs_Interceptor_attach
    | apply installs_install
    | apply installs_bind; [|intros ?]
    | apply installs_try_catch; [|intros ?]
    | match goal with
      | |- installs (if ?b then _ else _) _ =>
          destruct b; [apply installs_install | apply installs_weaken, installs_ret]
      end ].
Qed.

(** X1: whatever symbols the process has, the hooks that get installed
    are a subsequence of the eleven targets of the bootstrap, in script
    order and each at most once; [openFileInput] and [AssetManager.open],
    which the monitored list names, are never hooked. *)
Theorem installed_hooks_are_script_targets (p : Process) :
  sublist (installed (loaded p)) all_targets /\
  NoDup (installed (loaded p)) /\
  shouldLogApi "android.content.Context.openFileInput" = true /\
  shouldLogApi "android.content.res.AssetManager.open" = true /\
  ~ In "android.content.Context.openFileInput" (installed (loaded p)) /\
  ~ In "android.content.res.AssetManager.open" (installed (loaded p)).
Proof.
  destruct (main_installs p initial_world) as (l' & Hsub & Heq).
  assert (Hl : installed (loaded p) = l') by exact Heq.
  rewrite Hl.
  assert (Hnd : NoDup all_targets).
  { unfold all_targets. apply NoDup_ListNoDup.
    repeat (constructor; [vm_compute; intuition discriminate|]). constructor. }
  split; [exact Hsub|]. split; [eapply sublist_NoDup; eassumption|].
  split; [reflexivity|]. split; [reflexivity|].
  split; intros Hin; apply list_elem_of_In in Hin;
    apply (elem_of_sublist _ _ _ Hin) in Hsub;
    apply list_elem_of_In in Hsub; vm_compute in Hsub; intuition discriminate.
Qed.

Lemma installed_optional_block p cls member t msg s :
  installed (mkWorld (optional_block_trace p cls member t msg) s)
  = if java_class p cls && java_member p cls member then [t] else [].
Proof.
  unfold optional_block_trace.
  destruct (java_class p cls); [destruct (java_member p cls member)|]; reflexivity.
Qed.

Lemma installed_native_block p s :
  installed (mkWorld (native_block_trace p) s) = native_prefix p.
Proof.
  unfold native_block_trace, native_prefix, natives_present.
  destruct (libc_export p "socket"); [|reflexivity].
  destruct (libc_export p "connect"); [|reflexivity].
  destruct (libc_export p "send"); [|reflexivity].
  destruct (libc_export p "recv"); reflexivity.
Qed.

Lemma console_native_block p :
  console_of (native_block_trace p)
  = if natives_present p then []
    else ["Error setting up native network hooks: Error: expected a pointer"].
Proof.
  unfold native_block_trace, native_prefix, natives_present.
  destruct (libc_export p "socket"); [|reflexivity].
  destruct (libc_export p "connect"); [|reflexivity].
  destruct (libc_export p "send"); [|reflexivity].
  destruct (libc_export p "recv"); reflexivity.
Qed.

Lemma installed_mk_app tr1 tr2 s :
  installed (mkWorld (tr1 ++ tr2) s)
  = installed (mkWorld tr1 s) ++ installed (mkWorld tr2 s).
Proof. unfold installed. simpl. apply omap_app. Qed.

Lemma setupButton_block_lines p :
  ~ In "Error setting up native network hooks: Error: expected a pointer"
       (console_of
          (optional_block_trace p C_MainActivity "setupFileOperationButton"
             T_setupButton "Could not monitor setupFileOperationButton: ")).
Proof.
  unfold optional_block_trace.
  destruct (java_class p C_MainActivity);
    [destruct (java_member p C_MainActivity "setupFileOperationButton")|];
    vm_compute; intuition congruence.
Qed.

Lemma onClick_block_lines p :
  ~ In "Error setting up native network hooks: Error: expected a pointer"
       (console_of
          (optional_block_trace p C_MainActivity1 "onClick"
             T_onClick "Could not monitor MainActivity$1: ")).
Proof.
  unfold optional_block_trace.
  destruct (java_class p C_MainActivity1);
    [destruct (java_member p C_MainActivity1 "onClick")|];
    vm_compute; intuition congruence.
Qed.

(** The native diagnostic is printed by the native block only. *)
Lemma native_diagnostic_origin p :
  In "Error setting up native network hooks: Error: expected a pointer"
     (console_of (bootstrap_trace p))
  <-> natives_present p = false.
Proof.
  unfold bootstrap_trace. rewrite !console_of_app, !in_app_iff.
  rewrite console_native_block.
  pose proof (setupButton_block_lines p) as Hs.
  pose proof (onClick_block_lines p) as Ho.
  assert (Hfix : forall l : list action,
             In l [ [ ConsoleLog "[+] Frida script loaded"; Install T_File;
                      Install T_FileOutputStream; Install T_FileInputStream ];
                    [ Install T_openFileOutput ]; []; [ Install T_onCreate ];
                    [ ConsoleLog "[+] Setting up native network monitoring" ];
                    [ ConsoleLog "[+] Monitoring setup complete, waiting for operations..." ] ] ->
             ~ In "Error setting up native network hooks: Error: expected a pointer"
                  (console_of l)).
  { intros l Hl. simpl in Hl.
    repeat (destruct Hl as [<-|Hl]; [vm_compute; intuition congruence|]).
    destruct Hl. }
  split.
  - intros H. destruct (natives_present p); [|reflexivity]. exfalso.
    destruct (java_member p "android.content.Context" "openFileOutput");
      repeat (destruct H as [H|H]; try contradiction;
              try (revert H; apply Hfix; vm_compute; tauto)).
  - intros ->. do 6 right. left. now left.
Qed.

(** X2: when the core managed classes and members are present, the
    bootstrap completes whatever else is missing; the native hooks
    installed are those up to the first missing export, an absent
    [Context.openFileOutput] is skipped, and the diagnostic line of the
    native block is printed exactly when some export is missing. *)
Theorem bootstrap_with_managed_core (p : Process) :
  managed_core p = true ->
  fst (main p initial_world) = Ret tt /\
  installed (loaded p) = managed_installed p ++ native_prefix p /\
  last (console (loaded p))
  = Some "[+] Monitoring setup complete, waiting for operations..." /\
  (In "Error setting up native network hooks: Error: expected a pointer"
      (console (loaded p))
   <-> natives_present p = false).
Proof.
  intros Hcore. unfold loaded, console.
  rewrite (main_with_managed_core p Hcore). cbn [fst snd trace].
  split; [reflexivity|]. split; [|split].
  - unfold bootstrap_trace, managed_installed, setupButton_present, onClick_present.
    rewrite !installed_mk_app, !installed_optional_block, installed_native_block.
    destruct (java_member p "android.content.Context" "openFileOutput");
      cbn [installed trace omap list_omap app];
      now rewrite app_nil_r, <- ?app_assoc.
  - unfold bootstrap_trace. rewrite !app_assoc, console_of_app. apply last_snoc.
  - apply native_diagnostic_origin.
Qed.

Lemma bootstrap_with_managed_core_witness :
  fst (main without_socket initial_world) = Ret tt /\
  installed (loaded without_socket)
  = managed_installed without_socket ++ native_prefix without_socket /\
  last (console (loaded without_socket))
  = Some "[+] Monitoring setup complete, waiting for operations..." /\
  (In "Error setting up native network hooks: Error: expected a pointer"
      (console (loaded without_socket))
   <-> natives_present without_socket = false).
Proof.
  apply (bootstrap_with_managed_core without_socket). reflexivity.
Defined.

Ltac bootstrap_aborted_here :=
  cbn -[String.append];
  split; [eexists; reflexivity | split; [repeat constructor | reflexivity]].

Ltac bootstrap_aborted :=
  try destruct (java_member _ "android.content.Context" "openFileOutput");
  bootstrap_aborted_here.

(** X3: when a core managed class or member is missing, the bootstrap
    stops with the exception: only the banner line has been printed (no
    diagnostic), and no hook of the application's classes and no native
    hook is installed. *)
Theorem bootstrap_aborts_without_core (p : Process) :
  managed_core p = false ->
  (exists e, fst (main p initial_world) = Throw e) /\
  sublist (installed (loaded p))
    [ T_File; T_FileOutputStream; T_FileInputStream; T_openFileOutput ] /\
  console (loaded p) = [ "[+] Frida script loaded" ].
Proof.
  unfold managed_core. intros H.
  unfold loaded, console, installed, main, Java_use, set_implementation, bind,
    console_log, emit, ret, throw.
  destruct (java_class p "java.io.File"); [|bootstrap_aborted].
  destruct (java_member p "java.io.File" "$init"); [|bootstrap_aborted].
  destruct (java_class p "java.io.FileOutputStream"); [|bootstrap_aborted].
  destruct (java_member p "java.io.FileOutputStream" "$init"); [|bootstrap_aborted].
  destruct (java_class p "java.io.FileInputStream"); [|bootstrap_aborted].
  destruct (java_member p "java.io.FileInputStream" "$init"); [|bootstrap_aborted].
  destruct (java_class p "android.content.Context"); [|bootstrap_aborted].
  destruct (java_class p "android.app.Activity"); [|bootstrap_aborted].
  destruct (java_member p "android.app.Activity" "onCreate"); [|bootstrap_aborted].
  discriminate H.
Qed.

Lemma bootstrap_aborts_without_core_witness :
  (exists e, fst (main without_FileOutputStream initial_world) = Throw e) /\
  sublist (installed (loaded without_FileOutputStream))
    [ T_File; T_FileOutputStream; T_FileInputStream; T_openFileOutput ] /\
  console (loaded without_FileOutputStream) = [ "[+] Frida script loaded" ].
Proof.
  apply (bootstrap_aborts_without_core without_FileOutputStream). reflexivity.
Defined.

(* ===================================================================== *)
(** ** Managed hooks: lifecycle hooks, order of effects, resolution       *)
(* ===================================================================== *)

Lemma void_hook_run this target args diag w :
  (console_log diag ;;;
   _ <- call_original this target args ;;
   ret Js.VUndefined) w
  = (match original this args with inl e => Throw e | inr _ => Ret Js.VUndefined end,
     mkWorld (trace w ++ [ConsoleLog diag; CallOriginal target args]) (seenEvents w)).
Proof.
  unfold call_original, console_log, bind, emit, lift. simpl.
  destruct (original this args); unfold ret, throw; simpl;
    now rewrite <- !app_assoc.
Qed.

(** X4: the hooks on [Activity.onCreate],
    [MainActivity.setupFileOperationButton] and [MainActivity$1.onClick]
    print one free-form line and no structured line, invoke the original
    exactly once with the arguments of the call, return [undefined]
    whatever the original returned, and let its exception through. *)
Theorem lifecycle_hooks_log_and_forward (this : Receiver) (v : Js.value) (w : World) :
  (fst (Activity_onCreate this v w)
   = match original this [v] with inl e => Throw e | inr _ => Ret Js.VUndefined end /\
   console (snd (Activity_onCreate this v w))
   = console w ++ ["[Activity] onCreate called"] /\
   structured_lines (snd (Activity_onCreate this v w)) = structured_lines w /\
   forwarded (snd (Activity_onCreate this v w))
   = forwarded w ++ [("android.app.Activity.onCreate", [v])]) /\
  (fst (MainActivity_setupFileOperationButton this w)
   = match original this [] with inl e => Throw e | inr _ => Ret Js.VUndefined end /\
   console (snd (MainActivity_setupFileOperationButton this w))
   = console w ++ ["[MainActivity] Setting up file operation button"] /\
   structured_lines (snd (MainActivity_setupFileOperationButton this w))
   = structured_lines w /\
   forwarded (snd (MainActivity_setupFileOperationButton this w))
   = forwarded w
     ++ [("com.example.fridatestjavaapp.MainActivity.setupFileOperationButton", [])]) /\
  (fst (MainActivity1_onClick this v w)
   = match original this [v] with inl e => Throw e | inr _ => Ret Js.VUndefined end /\
   console (snd (MainActivity1_onClick this v w))
   = console w ++ ["[MainActivity$1] Click event triggered"] /\
   structured_lines (snd (MainActivity1_onClick this v w)) = structured_lines w /\
   forwarded (snd (MainActivity1_onClick this v w))
   = forwarded w ++ [("com.example.fridatestjavaapp.MainActivity$1.onClick", [v])]).
Proof.
  unfold Activity_onCreate, MainActivity_setupFileOperationButton,
    MainActivity1_onClick.
  rewrite !void_hook_run. cbn [fst snd].
  unfold structured_lines, console, forwarded. cbn [trace].
  rewrite !console_of_app, !forwarded_of_app, !List.filter_app.
  repeat split; cbn; now rewrite ?app_nil_r.
Qed.

(** X5: in the four monitored managed hooks the structured line is
    printed before the original is invoked, and the original is the last
    thing the hook does; what the hook prints does not depend on whether
    the original returns or throws. *)
Theorem managed_event_precedes_original
    (i : interception) (this : Receiver) (target : string)
    (args : list Js.value) (line : string) (w : World) :
  managed_call i = Some (this, target, args) ->
  managed_event i = Some line ->
  exists pre : list action,
    trace (step w i) = trace w ++ pre ++ [CallOriginal target args] /\
    In (ConsoleLog line) pre /\
    forwarded_of pre = [].
Proof.
  intros Hcall Hev.
  destruct i as [r path|r path|r path|r fileName mode| | | |];
    simpl in Hcall, Hev; try discriminate; injection Hcall as <- <- <-.
  - destruct (stack_capture r) as [e|stack] eqn:Hcap; [discriminate|].
    injection Hev as <-. rewrite (File_init_trace _ path _ w Hcap).
    eexists [Backtrace; ConsoleLog _; ConsoleLog _].
    split; [reflexivity|]. split; [simpl; tauto | reflexivity].
  - injection Hev as <-. rewrite FileOutputStream_init_trace.
    eexists [ConsoleLog _; ConsoleLog _].
    split; [reflexivity|]. split; [simpl; tauto | reflexivity].
  - injection Hev as <-. rewrite FileInputStream_init_trace.
    eexists [ConsoleLog _; ConsoleLog _].
    split; [reflexivity|]. split; [simpl; tauto | reflexivity].
  - injection Hev as <-. rewrite Context_openFileOutput_trace.
    eexists [ConsoleLog _; ConsoleLog _].
    split; [reflexivity|]. split; [simpl; tauto | reflexivity].
Qed.

Lemma managed_event_precedes_original_witness :
  exists pre : list action,
    trace (step initial_world
             (IFileOutputStreamInit failing_capture (Js.VString "/data/a.txt")))
    = trace initial_world ++ pre
      ++ [CallOriginal T_FileOutputStream [Js.VString "/data/a.txt"]] /\
    In (ConsoleLog
          (structured T_FileOutputStream "unknown"
             (jsonField "path" (Js.ToString (Js.VString "/data/a.txt"))))) pre /\
    forwarded_of pre = [].
Proof.
  apply (managed_event_precedes_original
           (IFileOutputStreamInit failing_capture (Js.VString "/data/a.txt"))
           failing_capture T_FileOutputStream [Js.VString "/data/a.txt"]);
    reflexivity.
Defined.

(** X6: when the stack capture of the [File] hook throws, the hook has
    printed nothing: neither the free-form line nor the structured line
    of that construction appears. *)
Theorem capture_failure_prints_nothing
    (this : Receiver) (path : Js.value) (e : exn) (w : World) :
  stack_capture this = inl e ->
  console (step w (IFileInit this path)) = console w /\
  structured_lines (step w (IFileInit this path)) = structured_lines w.
Proof.
  intros Hcap.
  assert (Htr : trace (step w (IFileInit this path)) = trace w ++ [Backtrace]).
  { unfold step. now rewrite (File_init_capture_throws _ _ _ _ Hcap). }
  split.
  - rewrite (console_step_app _ _ _ Htr). apply app_nil_r.
  - rewrite (structured_lines_step_app _ _ _ Htr). apply app_nil_r.
Qed.

Lemma capture_failure_prints_nothing_witness :
  console (step initial_world (IFileInit failing_capture (Js.VString "/data/a.txt")))
  = console initial_world /\
  structured_lines
    (step initial_world (IFileInit failing_capture (Js.VString "/data/a.txt")))
  = structured_lines initial_world.
Proof.
  apply (capture_failure_prints_nothing failing_capture (Js.VString "/data/a.txt")
           (HostError "unable to capture a backtrace")).
  reflexivity.
Defined.

(** X7: call-site resolution never throws; on a non-empty stack it
    yields the description of one of the captured frames, and as soon as
    some frame of the stack, at any depth, matches the application
    pattern, the frame it yields matches it too. *)
Theorem resolution_yields_a_captured_frame (stack : list DebugSymbol) (w : World) :
  exists site : string,
    resolveCallSite stack w = (Ret site, w) /\
    (stack = [] -> site = "") /\
    (stack <> [] -> exists f, In f stack /\ site = toString f) /\
    ((exists f, In f stack /\ isAppFrame f = true) ->
     exists g, In g stack /\ isAppFrame g = true /\ site = toString g).
Proof.
  exists (resolved stack). split; [apply resolveCallSite_resolved|].
  split; [now intros ->|]. split.
  - intros Hne. destruct stack as [|f0 rest]; [contradiction|].
    unfold resolved.
    destruct (List.find isAppFrame (f0 :: rest)) as [f|] eqn:Hfind.
    + apply List.find_some in Hfind as [Hin _]. now exists f.
    + exists f0. split; [now left | reflexivity].
  - intros (f & Hin & Happ).
    destruct stack as [|f0 rest]; [destruct Hin|].
    unfold resolved.
    destruct (List.find isAppFrame (f0 :: rest)) as [g|] eqn:Hfind.
    + apply List.find_some in Hfind as [Hg Hgapp]. now exists g.
    + apply (List.find_none _ _ Hfind) in Hin. congruence.
Qed.

(* ===================================================================== *)
(** ** Event identifiers and the deduplication test                       *)
(* ===================================================================== *)

Lemma pretty_N_go_free_of_underscore (x : N) (s : string) :
  free_of "_" s = true -> free_of "_" (pretty_N_go x s) = true.
Proof.
  revert s. induction (N.lt_wf_0 x) as [x _ IH]; intros s Hs.
  assert (x = 0 \/ 0 < x)%N as [->|Hpos] by lia.
  - now rewrite pretty_N_go_0.
  - rewrite pretty_N_go_step by exact Hpos.
    apply IH; [now apply N.div_lt|].
    cbn [free_of]. rewrite Hs, andb_true_r.
    unfold pretty_N_char. repeat case_match; reflexivity.
Qed.

Lemma int_toString_free_of_underscore (z : Z) :
  free_of "_" (Js.int_toString z) = true.
Proof.
  unfold Js.int_toString, pretty, pretty_Z.
  destruct z as [|q|q]; [reflexivity| |].
  - unfold pretty, pretty_positive, pretty, pretty_N.
    case_decide; [reflexivity|]. now apply pretty_N_go_free_of_underscore.
  - change ("-" +:+ pretty q) with (String "-" (pretty q)).
    cbn [free_of]. simpl.
    unfold pretty, pretty_positive, pretty, pretty_N.
    case_decide; [reflexivity|]. now apply pretty_N_go_free_of_underscore.
Qed.

(** Two texts without an underscore, each followed by an underscore and
    a rest, are equal only part by part. *)
Lemma split_at_underscore (a c b d : string) :
  free_of "_" a = true -> free_of "_" c = true ->
  a +:+ "_" +:+ b = c +:+ "_" +:+ d -> a = c /\ b = d.
Proof.
  revert c. induction a as [|x a IH]; intros [|y c] Ha Hc Heq.
  - change (String "_" b = String "_" d) in Heq.
    injection Heq as ->. now split.
  - exfalso. change (String "_" b = String y (c +:+ "_" +:+ d)) in Heq.
    injection Heq as Hy _. subst y. discriminate Hc.
  - exfalso. change (String x (a +:+ "_" +:+ b) = String "_" d) in Heq.
    injection Heq as Hx _. subst x. discriminate Ha.
  - change (String x (a +:+ "_" +:+ b) = String y (c +:+ "_" +:+ d)) in Heq.
    injection Heq as -> Heq.
    cbn [free_of] in Ha, Hc.
    apply andb_prop in Ha as [_ Ha]. apply andb_prop in Hc as [_ Hc].
    destruct (IH c Ha Hc Heq) as [-> ->]. now split.
Qed.

(** The three shapes of an event identifier. *)
Lemma dedup_event_identifier i t k d l :
  dedup_event i = Some (t, k, d, l) ->
  exists x : string,
    (t = T_connect /\ k = "connect_" +:+ x
     /\ d = "[Native] Connect called with sockfd: " +:+ x
     /\ l = structured T_connect "native" (jsonField "sockfd" x))
    \/ (exists y : string,
          free_of "_" x = true /\
          ((t = T_send /\ k = "send_" +:+ x +:+ "_" +:+ y
            /\ d = "[Native] Sending " +:+ y +:+ " bytes on socket " +:+ x
            /\ l = structured T_send "native"
                     (jsonField "sockfd" x +:+ "," +:+ jsonField "size" y))
           \/ (t = T_recv /\ k = "recv_" +:+ x +:+ "_" +:+ y
               /\ d = "[Native] Receiving up to " +:+ y +:+ " bytes on socket " +:+ x
               /\ l = structured T_recv "native"
                        (jsonField "sockfd" x +:+ "," +:+ jsonField "size" y)))).
Proof.
  destruct i as [| | | | |a|a|a]; intros H; try discriminate H;
    cbv beta iota zeta delta [dedup_event] in H;
    injection H as <- <- <- <-;
    exists (Js.int_toString (Js.toInt32 (a 0%nat))).
  - left. repeat split.
  - right. exists (Js.int_toString (Js.toInt32 (a 2%nat))).
    split; [apply int_toString_free_of_underscore|]. left. repeat split.
  - right. exists (Js.int_toString (Js.toInt32 (a 2%nat))).
    split; [apply int_toString_free_of_underscore|]. right. repeat split.
Qed.

Lemma first_char_differs (c1 c2 : ascii) (s1 s2 r1 r2 : string) :
  c1 <> c2 -> String c1 s1 +:+ r1 <> String c2 s2 +:+ r2.
Proof.
  intros Hne Heq.
  change (String c1 (s1 +:+ r1) = String c2 (s2 +:+ r2)) in Heq.
  injection Heq as Hc _. contradiction.
Qed.

(** X9: the event identifier computed by the [connect], [send] and
    [recv] callbacks identifies the event: two interceptions with the
    same identifier are of the same target and print the same lines, so
    the shared store never confuses two targets, two descriptors or two
    sizes. *)
Theorem event_id_identifies_event
    (i j : interception) (t t' k d d' l l' : string) :
  dedup_event i = Some (t, k, d, l) ->
  dedup_event j = Some (t', k, d', l') ->
  t = t' /\ d = d' /\ l = l'.
Proof.
  intros Hi Hj.
  destruct (dedup_event_identifier _ _ _ _ _ Hi)
    as (x & [(-> & Hk & -> & ->) | (y & Hx & [(-> & Hk & -> & ->) | (-> & Hk & -> & ->)])]);
    destruct (dedup_event_identifier _ _ _ _ _ Hj)
      as (x' & [(-> & Hk' & -> & ->)
               | (y' & Hx' & [(-> & Hk' & -> & ->) | (-> & Hk' & -> & ->)])]);
    rewrite Hk in Hk'; clear Hi Hj Hk;
    try (exfalso; revert Hk'; apply first_char_differs; discriminate).
  - apply (inj (String.append "connect_")) in Hk'. now subst x'.
  - apply (inj (String.append "send_")) in Hk'.
    apply split_at_underscore in Hk' as [-> ->]; auto.
  - apply (inj (String.append "recv_")) in Hk'.
    apply split_at_underscore in Hk' as [-> ->]; auto.
Qed.

Lemma event_id_identifies_event_witness :
  T_send = T_send /\
  "[Native] Sending " +:+ Js.int_toString (Js.toInt32 10) +:+ " bytes on socket "
    +:+ Js.int_toString (Js.toInt32 5)
  = "[Native] Sending " +:+ Js.int_toString (Js.toInt32 (2 ^ 32 + 10))
      +:+ " bytes on socket " +:+ Js.int_toString (Js.toInt32 5) /\
  structured T_send "native"
    (jsonField "sockfd" (Js.int_toString (Js.toInt32 5)) +:+ "," +:+
     jsonField "size" (Js.int_toString (Js.toInt32 10)))
  = structured T_send "native"
      (jsonField "sockfd" (Js.int_toString (Js.toInt32 5)) +:+ "," +:+
       jsonField "size" (Js.int_toString (Js.toInt32 (2 ^ 32 + 10)))).
Proof.
  apply (event_id_identifies_event
           (ISend (args_of [5; 0; 10])) (ISend (args_of [5; 0; 2 ^ 32 + 10]))
           T_send T_send "send_5_10").
  - vm_compute. reflexivity.
  - vm_compute. reflexivity.
Defined.

Lemma marked_run key calls w : marked key w -> marked key (run calls w).
Proof.
  revert w. induction calls as [|c calls IH]; intros w Hm; [exact Hm|].
  apply IH. now apply marked_step.
Qed.

(** X11: in a world where [seenEvents] is bound to an object that does
    not hold the identifier yet, an interception of [connect], [send] or
    [recv] prints its structured line, and from then on no interception
    with the same target and identifier prints one, whatever other
    interceptions happen in between. *)
Theorem bound_store_deduplicates
    (i j : interception) (t k d l : string) (w : World) (o : gmap string bool)
    (calls : list interception) :
  dedup_event i = Some (t, k, d, l) ->
  seenEvents w = Some o ->
  o !! k = None ->
  dedup_key j = Some (t, k) ->
  new_structured w i = [l] /\
  new_structured (run calls (step w i)) j = [].
Proof.
  intros Hev Ho Hk Hj. split.
  - exact (fresh_key_emits_when_bound _ _ _ _ _ _ _ Hev Ho Hk).
  - assert (Hm : marked k (run calls (step w i))).
    { apply marked_run. rewrite (dedup_step _ _ _ _ _ w Hev), Ho, Hk. simpl.
      exists (<[k := true]> o). split; [reflexivity | apply lookup_insert_eq]. }
    unfold dedup_key in Hj.
    destruct (dedup_event j) as [[[[t' k'] d'] l']|] eqn:Hevj; [|discriminate].
    injection Hj as -> ->.
    destruct Hm as (o' & Ho' & Hk').
    now rewrite (dedup_new_structured _ _ _ _ _ _ Hevj), Ho', Hk'.
Qed.

Lemma bound_store_deduplicates_witness :
  new_structured (mkWorld [] (Some ∅)) (IConnect (args_of [5]))
  = [ structured T_connect "native" (jsonField "sockfd" "5") ] /\
  new_structured
    (run [ISocket (args_of [2; 1; 0]); ISend (args_of [5; 0; 10])]
       (step (mkWorld [] (Some ∅)) (IConnect (args_of [5]))))
    (IConnect (args_of [5]))
  = [].
Proof.
  apply (bound_store_deduplicates
           (IConnect (args_of [5])) (IConnect (args_of [5]))
           T_connect "connect_5" "[Native] Connect called with sockfd: 5"
           (structured T_connect "native" (jsonField "sockfd" "5"))
           (mkWorld [] (Some ∅)) ∅).
  - vm_compute. reflexivity.
  - reflexivity.
  - reflexivity.
  - vm_compute. reflexivity.
Defined.

Lemma dedup_hooks_silent_witness :
  trace (step (run [ISocket (args_of [2; 1; 0])] (loaded full_process))
           (IRecv (args_of [5; 0; 4096])))
  = trace (run [ISocket (args_of [2; 1; 0])] (loaded full_process))
    ++ [ScriptError (ReferenceError "seenEvents"); ProceedNative T_recv] /\
  new_structured (run [ISocket (args_of [2; 1; 0])] (loaded full_process))
    (IRecv (args_of [5; 0; 4096]))
  = [].
Proof.
  apply (dedup_hooks_silent full_process [ISocket (args_of [2; 1; 0])]
           (IRecv (args_of [5; 0; 4096])) T_recv "recv_5_4096"
           "[Native] Receiving up to 4096 bytes on socket 5"
           (structured T_recv "native"
              (jsonField "sockfd" "5" +:+ "," +:+ jsonField "size" "4096"))).
  vm_compute. reflexivity.
Defined.

(* ===================================================================== *)
(** ** The structured output of a whole run                               *)
(* ===================================================================== *)

Lemma setupButton_block_unstructured p :
  List.filter is_structured
    (console_of
       (optional_block_trace p C_MainActivity "setupFileOperationButton"
          T_setupButton "Could not monitor setupFileOperationButton: "))
  = [].
Proof.
  unfold optional_block_trace.
  destruct (java_class p C_MainActivity);
    [destruct (java_member p C_MainActivity "setupFileOperationButton")|];
    reflexivity.
Qed.

Lemma onClick_block_unstructured p :
  List.filter is_structured
    (console_of
       (optional_block_trace p C_MainActivity1 "onClick"
          T_onClick "Could not monitor MainActivity$1: "))
  = [].
Proof.
  unfold optional_block_trace.
  destruct (java_class p C_MainActivity1);
    [destruct (java_member p C_MainActivity1 "onClick")|];
    reflexivity.
Qed.

(** An aborted bootstrap has printed its banner and nothing else. *)
Lemma aborted_console p :
  managed_core p = false -> console (loaded p) = [ "[+] Frida script loaded" ].
Proof.
  unfold managed_core. intros H.
  unfold loaded, console, main, Java_use, set_implementation, bind,
    console_log, emit, ret, throw.
  destruct (java_class p "java.io.File"); [|reflexivity].
  destruct (java_member p "java.io.File" "$init"); [|reflexivity].
  destruct (java_class p "java.io.FileOutputStream"); [|reflexivity].
  destruct (java_member p "java.io.FileOutputStream" "$init"); [|reflexivity].
  destruct (java_class p "java.io.FileInputStream"); [|reflexivity].
  destruct (java_member p "java.io.FileInputStream" "$init"); [|reflexivity].
  destruct (java_class p "android.content.Context"); [|reflexivity].
  destruct (java_member p "android.content.Context" "openFileOutput");
    (destruct (java_class p "android.app.Activity"); [|reflexivity]);
    (destruct (java_member p "android.app.Activity" "onCreate"); [|reflexivity]);
    discriminate H.
Qed.

(** The bootstrap prints free-form lines only. *)
Lemma loaded_prints_no_event p : structured_lines (loaded p) = [].
Proof.
  destruct (managed_core p) eqn:Hcore.
  - unfold structured_lines, console, loaded.
    rewrite (main_with_managed_core p Hcore). cbn [snd trace].
    unfold bootstrap_trace.
    rewrite !console_of_app, !List.filter_app.
    rewrite setupButton_block_unstructured, onClick_block_unstructured,
      console_native_block.
    destruct (java_member p "android.content.Context" "openFileOutput");
      destruct (natives_present p); reflexivity.
  - unfold structured_lines. now rewrite (aborted_console p Hcore).
Qed.

Lemma unbound_step_lines i w :
  seenEvents w = None ->
  structured_lines (step w i)
  = structured_lines w ++ option_list (printed_event i).
Proof.
  intros Hw.
  destruct (dedup_event i) as [[[[t k] d] l]|] eqn:Hev.
  - assert (Htr : trace (step w i)
                  = trace w ++ [ScriptError (ReferenceError "seenEvents");
                                ProceedNative t]).
    { now rewrite (dedup_step _ _ _ _ _ w Hev), Hw. }
    rewrite (structured_lines_step_app _ _ _ Htr).
    destruct i; simpl in Hev; try discriminate Hev; reflexivity.
  - destruct i as [r path|r path|r path|r fileName mode|args| | |];
      simpl in Hev; try discriminate Hev.
    + cbn [printed_event managed_event].
      destruct (stack_capture r) as [e|stack] eqn:Hcap.
      * assert (Htr : trace (step w (IFileInit r path)) = trace w ++ [Backtrace]).
        { unfold step. now rewrite (File_init_capture_throws _ _ _ _ Hcap). }
        now rewrite (structured_lines_step_app _ _ _ Htr).
      * apply managed_step_emits. cbn [managed_event]. now rewrite Hcap.
    + now apply managed_step_emits.
    + now apply managed_step_emits.
    + now apply managed_step_emits.
    + now rewrite (structured_lines_step_app _ _ _ (socket_trace args w)).
Qed.

Lemma unbound_run_lines calls w :
  seenEvents w = None ->
  structured_lines (run calls w)
  = structured_lines w ++ omap printed_event calls.
Proof.
  revert w. induction calls as [|i calls IH]; intros w Hw.
  - simpl. now rewrite app_nil_r.
  - change (run (i :: calls) w) with (run calls (step w i)).
    rewrite (IH _ (unbound_step _ _ Hw)), (unbound_step_lines _ _ Hw).
    cbn [omap list_omap]. rewrite <- app_assoc. f_equal.
    now destruct (printed_event i).
Qed.

(** X12: the structured output of a whole process lifetime.  Whatever
    symbols the process has, the bootstrap prints no structured line, and
    after any sequence of interceptions the structured lines are exactly
    those of the managed hooks (whose stack capture did not throw) and of
    [socket], in the order of the calls; [connect], [send] and [recv]
    contribute none. *)
Theorem lifetime_structured_output (p : Process) (calls : list interception) :
  structured_lines (run calls (loaded p)) = omap printed_event calls.
Proof.
  rewrite (unbound_run_lines _ _ (loaded_store_unbound p)).
  now rewrite loaded_prints_no_event.
Qed.

Lemma step_forwarded i w :
  forwarded (step w i) = forwarded w ++ option_list (forwarded_call i).
Proof.
  destruct (dedup_event i) as [[[[t k] d] l]|] eqn:Hev.
  - assert (Hnone : forwarded_call i = None).
    { destruct i; simpl in Hev; try discriminate Hev; reflexivity. }
    rewrite Hnone, (dedup_step _ _ _ _ _ w Hev).
    unfold forwarded.
    destruct (seenEvents w) as [o|]; [destruct (default false (o !! k))|];
      cbn [trace]; now rewrite forwarded_of_app.
  - destruct i as [r path|r path|r path|r fileName mode|args| | |];
      simpl in Hev; try discriminate Hev.
    + unfold forwarded_call. cbn [managed_call capture_failure].
      destruct (stack_capture r) as [e|stack] eqn:Hcap.
      * assert (Htr : trace (step w (IFileInit r path)) = trace w ++ [Backtrace]).
        { unfold step. now rewrite (File_init_capture_throws _ _ _ _ Hcap). }
        now rewrite (forwarded_step_app _ _ _ Htr).
      * now rewrite (forwarded_step_app _ _ _ (File_init_trace _ path _ w Hcap)).
    + now rewrite (forwarded_step_app _ _ _ (FileOutputStream_init_trace r path w)).
    + now rewrite (forwarded_step_app _ _ _ (FileInputStream_init_trace r path w)).
    + now rewrite (forwarded_step_app _ _ _
                     (Context_openFileOutput_trace r fileName mode w)).
    + now rewrite (forwarded_step_app _ _ _ (socket_trace args w)).
Qed.

(** X13: over any run, from any world, the original managed
    implementations are invoked exactly once per managed interception
    whose stack capture did not throw, in the order of the calls and with
    the arguments of each call; native interceptions invoke none. *)
Theorem lifetime_forwarding (calls : list interception) (w : World) :
  forwarded (run calls w) = forwarded w ++ omap forwarded_call calls.
Proof.
  revert w. induction calls as [|i calls IH]; intros w.
  - simpl. now rewrite app_nil_r.
  - change (run (i :: calls) w) with (run calls (step w i)).
    rewrite IH, step_forwarded. cbn [omap list_omap].
    rewrite <- app_assoc. f_equal. now destruct (forwarded_call i).
Qed.
